(** * A shallow embedding of the financial-consultant bot (src/main.py)

    The bot is a thin layer over three collaborators: the chat transport
    (aiogram), the quote provider (Alpha Vantage over HTTP) and a SQLite
    store.  The embedding keeps the structure of the source:

    - Python [str] values are sequences of Unicode code points;
    - Python [float] is IEEE binary64, i.e. Rocq's primitive [float];
    - exceptions are an explicit result type, [try]/[except] a combinator;
    - the handlers run in a state monad over a [world] that holds the FSM
      storage, the two tables the code touches, the outbound messages and
      the provider's behaviour. *)

From Stdlib Require Import ZArith NArith List Bool Lia.
From Stdlib Require Import Strings.String Strings.Ascii.
From Stdlib Require Import Floats.PrimFloat Floats.SpecFloat Floats.FloatOps.
From stdpp Require Import gmap.

Set Warnings "-register-all".

Local Open Scope Z_scope.

(** ** Python strings *)

Module PyStr.

(** A Python [str]: its code points, in order. *)
Definition pystr := list N.

(** Decoder of the UTF-8 bytes of a literal of this file into code points:
    [need] continuation bytes are still expected for the code point whose
    high bits are [acc]. *)
Fixpoint utf8_go (bs : list N) (need : nat) (acc : N) : pystr :=
  match bs with
  | [] => []
  | b :: r =>
      if (b <? 128)%N then b :: utf8_go r 0 0%N
      else if (b <? 192)%N then
        let acc' := (acc * 64 + b mod 64)%N in
        match need with
        | O => utf8_go r 0 0%N
        | S O => acc' :: utf8_go r 0 0%N
        | S n => utf8_go r n acc'
        end
      else if (b <? 224)%N then utf8_go r 1 (b mod 32)%N
      else if (b <? 240)%N then utf8_go r 2 (b mod 16)%N
      else utf8_go r 3 (b mod 8)%N
  end.

Fixpoint bytes_of (s : string) : list N :=
  match s with
  | EmptyString => []
  | String c r => N_of_ascii c :: bytes_of r
  end.

(** A string literal of the source, as a Python [str]. *)
Definition lit (s : string) : pystr := utf8_go (bytes_of s) 0 0%N.
Arguments lit : simpl never.

Definition nl : pystr := [10%N].

(** [str.isspace] of one code point (CPython's [_PyUnicode_IsWhitespace]). *)
Definition is_space (c : N) : bool :=
  ((9 <=? c) && (c <=? 13) || (28 <=? c) && (c <=? 32)
   || (c =? 133) || (c =? 160) || (c =? 5760)
   || (8192 <=? c) && (c <=? 8202)
   || (c =? 8232) || (c =? 8233) || (c =? 8239) || (c =? 8287)
   || (c =? 12288))%N.

(** [s.lstrip()], [s.rstrip()] and [s.strip()]. *)
Fixpoint lstrip (s : pystr) : pystr :=
  match s with
  | c :: r => if is_space c then lstrip r else s
  | [] => []
  end.

Definition rstrip (s : pystr) : pystr := rev (lstrip (rev s)).

Definition strip (s : pystr) : pystr := rstrip (lstrip s).

(** [s.split()]: the maximal runs of non-whitespace code points; [cur] is
    the run being read. *)
Fixpoint split_ws_go (s cur : pystr) : list pystr :=
  match s with
  | [] => match cur with [] => [] | _ => [cur] end
  | c :: r =>
      if is_space c
      then match cur with [] => split_ws_go r [] | _ => cur :: split_ws_go r [] end
      else split_ws_go r (cur ++ [c])
  end.

Definition split_ws (s : pystr) : list pystr := split_ws_go s [].

(** [s.split(sep)] for a separator of one code point: every occurrence
    splits, empty fields are kept. *)
Fixpoint split_on_go (sep : N) (s cur : pystr) : list pystr :=
  match s with
  | [] => [cur]
  | c :: r =>
      if (c =? sep)%N then cur :: split_on_go sep r []
      else split_on_go sep r (cur ++ [c])
  end.

Definition split_on (sep : N) (s : pystr) : list pystr := split_on_go sep s [].

Definition underscore : N := 95%N.

(** The part of [s] before its first [sep] (all of [s] when it has none). *)
Fixpoint before_first (sep : N) (s : pystr) : pystr :=
  match s with
  | [] => []
  | c :: r => if (c =? sep)%N then [] else c :: before_first sep r
  end.

Fixpoint starts_with (p s : pystr) : bool :=
  match p, s with
  | [], _ => true
  | a :: p', b :: s' => (a =? b)%N && starts_with p' s'
  | _ :: _, [] => false
  end.

(** [p in s] for two strings: [p] occurs as a contiguous run of [s]. *)
Fixpoint is_substring (p s : pystr) : bool :=
  starts_with p s ||
  match s with
  | [] => false
  | _ :: r => is_substring p r
  end.

Definition pystr_eqb (a b : pystr) : bool := bool_decide (a = b).

(** Decimal digits of a natural number, most significant first. *)
Fixpoint digits_go (fuel : nat) (n : N) (acc : pystr) : pystr :=
  match fuel with
  | O => acc
  | S f =>
      let acc' := (48 + n mod 10)%N :: acc in
      if (n <? 10)%N then acc' else digits_go f (n / 10)%N acc'
  end.

Definition digits (n : N) : pystr := digits_go (S (N.to_nat (N.log2 n))) n [].

(** [str(z)] for a Python [int]. *)
Definition str_of_int (z : Z) : pystr :=
  if z <? 0 then 45%N :: digits (Z.abs_N z) else digits (Z.abs_N z).

(** The digit string [ds] with a comma before every group of three digits
    counted from the right ([format(z, ",")]). *)
Fixpoint group3 (rds : pystr) : pystr :=
  match rds with
  | a :: b :: c :: ((_ :: _) as r) => a :: b :: c :: 44%N :: group3 r
  | _ => rds
  end.

Definition str_of_int_grouped (z : Z) : pystr :=
  let body := rev (group3 (rev (digits (Z.abs_N z)))) in
  if z <? 0 then 45%N :: body else body.

End PyStr.
Import PyStr.

(** ** Exceptions *)

(** The exception classes the modelled code can meet.  All of them derive
    from Python's [Exception], which is what both [except] clauses of the
    source catch. *)
Inductive exn :=
| ValueError | TypeError | AttributeError | KeyError | IndexError
| ZeroDivisionError | OverflowError
| ClientError        (* aiohttp: the transport failed *)
| JSONDecodeError    (* aiohttp: the body is no JSON document *)
| IntegrityError.    (* sqlite3: a constraint failed *)

(** Outcome of an expression or a call: a value, or a raised exception. *)
Inductive res (A : Type) :=
| Ok (a : A)
| Raise (e : exn).
Arguments Ok {A} a.
Arguments Raise {A} e.

Definition res_bind {A B} (r : res A) (k : A -> res B) : res B :=
  match r with
  | Ok a => k a
  | Raise e => Raise e
  end.

Notation "x <- r ;; k" := (res_bind r (fun x => k))
  (at level 100, r at next level, right associativity, only parsing).

(** [f(s)] for a builtin that raises [ValueError] on text it rejects. *)
Definition or_value_error {A} (o : option A) : res A :=
  match o with
  | Some a => Ok a
  | None => Raise ValueError
  end.

(** [l[i]] on a Python list. *)
Definition index {A} (l : list A) (i : nat) : res A :=
  match nth_error l i with
  | Some a => Ok a
  | None => Raise IndexError
  end.

(** ** Python floats *)

Module PyFloat.

(** [float(z)] for a Python [int]: the nearest binary64 (ties to even);
    [OverflowError] when that is beyond the largest finite float. *)
Definition of_int (z : Z) : res float :=
  let f := SF2Prim (binary_normalize prec emax z 0 false) in
  if is_infinity f then Raise OverflowError else Ok f.

(** [a / b]: Python raises on a zero divisor of either sign. *)
Definition truediv (a b : float) : res float :=
  if is_zero b then Raise ZeroDivisionError else Ok (a / b)%float.

(** [f > 0] with the int literal [0]. *)
Definition gt0 (f : float) : bool := (0 <? f)%float.

(** [int(f)]: truncation toward zero. *)
Definition trunc (f : float) : res Z :=
  match Prim2SF f with
  | S754_nan => Raise ValueError
  | S754_infinity _ => Raise OverflowError
  | S754_zero _ => Ok 0
  | S754_finite s m e =>
      let a := if 0 <=? e then Z.pos m * 2 ^ e else Z.pos m / 2 ^ (- e) in
      Ok (if s then - a else a)
  end.

(** The integer nearest to [m * 2^e * 100], ties to even. *)
Definition cents (m : positive) (e : Z) : Z :=
  if 0 <=? e then Z.pos m * 2 ^ e * 100
  else
    let d := 2 ^ (- e) in
    let q := (Z.pos m * 100) / d in
    let r := (Z.pos m * 100) mod d in
    match 2 * r ?= d with
    | Lt => q
    | Gt => q + 1
    | Eq => if Z.even q then q else q + 1
    end.

Definition two_digits (n : Z) : pystr :=
  [(48 + Z.to_N (n / 10))%N; (48 + Z.to_N (n mod 10))%N].

Definition sign_text (plus neg : bool) : pystr :=
  if neg then lit "-" else if plus then lit "+" else [].

(** [format(f, ".2f")], and [format(f, "+.2f")] when [plus] is set: the
    exact value of [f] rounded to two decimals, ties to even. *)
Definition fixed2 (plus : bool) (f : float) : pystr :=
  match Prim2SF f with
  | S754_nan => sign_text plus false ++ lit "nan"
  | S754_infinity s => sign_text plus s ++ lit "inf"
  | S754_zero s => sign_text plus s ++ lit "0.00"
  | S754_finite s m e =>
      let c := cents m e in
      sign_text plus s ++ str_of_int (c / 100) ++ lit "." ++ two_digits (c mod 100)
  end.

End PyFloat.

(** ** JSON documents *)

(** What [response.json()] returns: Python's image of a JSON document.  A
    [dict] is kept as its items; [get_item] reads the first item of a key. *)
Inductive json :=
| JNull
| JBool (b : bool)
| JInt (z : Z)
| JFloat (f : float)
| JStr (s : pystr)
| JList (l : list json)
| JDict (d : list (pystr * json)).

Fixpoint get_item (d : list (pystr * json)) (k : pystr) : option json :=
  match d with
  | [] => None
  | (k', v) :: r => if pystr_eqb k' k then Some v else get_item r k
  end.

Definition is_str (v : json) (s : pystr) : bool :=
  match v with
  | JStr s' => pystr_eqb s' s
  | _ => false
  end.

(** [k in v] for a string [k]. *)
Definition contains (v : json) (k : pystr) : res bool :=
  match v with
  | JDict d => Ok (match get_item d k with Some _ => true | None => false end)
  | JList l => Ok (existsb (fun x => is_str x k) l)
  | JStr s => Ok (is_substring k s)
  | _ => Raise TypeError
  end.

(** [v[k]] for a string [k]. *)
Definition subscript (v : json) (k : pystr) : res json :=
  match v with
  | JDict d => match get_item d k with Some x => Ok x | None => Raise KeyError end
  | _ => Raise TypeError
  end.

(** [v.get(k, dflt)]: only a [dict] has the method. *)
Definition dict_get (v : json) (k : pystr) (dflt : json) : res json :=
  match v with
  | JDict d => Ok (match get_item d k with Some x => x | None => dflt end)
  | _ => Raise AttributeError
  end.

(** [v[:n]]. *)
Definition slice_to (n : nat) (v : json) : res json :=
  match v with
  | JStr s => Ok (JStr (firstn n s))
  | JList l => Ok (JList (firstn n l))
  | _ => Raise TypeError
  end.

(** Truth value of [v] in an [if]. *)
Definition truthy (v : json) : bool :=
  match v with
  | JNull => false
  | JBool b => b
  | JInt z => negb (z =? 0)
  | JFloat f => negb (is_zero f)
  | JStr s => match s with [] => false | _ => true end
  | JList l => match l with [] => false | _ => true end
  | JDict d => match d with [] => false | _ => true end
  end.

(** ** The parts of the Python runtime the model takes as given

    The text grammars of [int()] and [float()], the upper-case mapping of
    the non-ASCII code points, [repr] of floats and containers and the
    rendering of the local time are tables and algorithms of CPython, not
    of this repository.  The handlers are modelled once for every such
    runtime; [plain_runtime] below is one that evaluates. *)
Class Runtime := {
  (** [int(s)] on a string; [None] is [ValueError] *)
  int_of_str : pystr -> option Z;
  (** [float(s)] on a string; [None] is [ValueError] *)
  float_of_str : pystr -> option float;
  (** [chr(c).upper()] for a code point above 127 *)
  unicode_upper : N -> pystr;
  (** [str(v)] of a float, a list or a dict *)
  repr_other : json -> pystr;
  (** [datetime.now().strftime('%Y-%m-%d %H:%M')] at clock value [t] *)
  strftime_now : Z -> pystr
}.

Section Builtins.
Context `{Runtime}.

(** [s.upper()]. *)
Definition upper_char (c : N) : pystr :=
  if (c <? 128)%N
  then if ((97 <=? c) && (c <=? 122))%N then [(c - 32)%N] else [c]
  else unicode_upper c.

Definition upper (s : pystr) : pystr := flat_map upper_char s.

(** [float(v)] as the source applies it to a field of the quote. *)
Definition to_float (v : json) : res float :=
  match v with
  | JStr s => or_value_error (float_of_str s)
  | JInt z => PyFloat.of_int z
  | JFloat f => Ok f
  | JBool b => Ok (if b then 1%float else 0%float)
  | JNull | JList _ | JDict _ => Raise TypeError
  end.

(** [int(v)] as the source applies it to the volume. *)
Definition to_int (v : json) : res Z :=
  match v with
  | JStr s => or_value_error (int_of_str s)
  | JInt z => Ok z
  | JFloat f => PyFloat.trunc f
  | JBool b => Ok (if b then 1 else 0)
  | JNull | JList _ | JDict _ => Raise TypeError
  end.

(** [str(v)], which is what an f-string field without a format does. *)
Definition to_str (v : json) : pystr :=
  match v with
  | JStr s => s
  | JInt z => str_of_int z
  | JBool b => if b then lit "True" else lit "False"
  | JNull => lit "None"
  | JFloat _ | JList _ | JDict _ => repr_other v
  end.

End Builtins.

(** ** The SQLite store *)

Module Store.

(** A row of [users]; [created_at] is filled by its column default,
    [CURRENT_TIMESTAMP], when the row is inserted. *)
Record user_row := {
  user_id : Z;
  username : pystr;
  first_name : pystr;
  created_at : Z
}.

(** A row of [watchlist]; [id] is the [AUTOINCREMENT] key. *)
Record watch_row := {
  id : Z;
  w_user_id : Z;
  ticker : pystr;
  added_at : Z
}.

(** The tables the code reads or writes, each as its rows in rowid order
    (SQLite's order for a scan of the table), and the counter behind
    [AUTOINCREMENT] (the largest [id] ever handed out). *)
Record database := {
  users : list user_row;
  watchlist : list watch_row;
  watchlist_seq : Z
}.

Definition empty_db : database :=
  {| users := []; watchlist := []; watchlist_seq := 0 |}.

(** What an [INSERT] does when the new row's primary key is taken:
    plain [INSERT] aborts the statement, [INSERT OR REPLACE] deletes the
    rows in the way first. *)
Inductive on_conflict := Abort | Replace.

Definition has_user (uid : Z) (t : list user_row) : bool :=
  existsb (fun r => user_id r =? uid) t.

Definition insert_user (oc : on_conflict) (r : user_row) (t : list user_row)
  : res (list user_row) :=
  if has_user (user_id r) t then
    match oc with
    | Abort => Raise IntegrityError
    | Replace =>
        Ok (List.filter (fun x => negb (user_id x =? user_id r)) t ++ [r])
    end
  else Ok (t ++ [r]).

(** The rows of [users] whose key is [uid]. *)
Definition rows_of (uid : Z) (t : list user_row) : list user_row :=
  List.filter (fun r => user_id r =? uid) t.

Section Operations.
Context `{Runtime}.

(** [save_user]: INSERT OR REPLACE INTO users (user_id, username,
    first_name); [now] is the store's clock when the statement runs. *)
Definition save_user (now : Z) (uid : Z) (uname fname : pystr) (db : database)
  : res database :=
  t <- insert_user Replace
         {| user_id := uid; username := uname; first_name := fname;
            created_at := now |} (users db) ;;
  Ok {| users := t; watchlist := watchlist db;
        watchlist_seq := watchlist_seq db |}.

(** [add_to_watchlist]: INSERT INTO watchlist (user_id, ticker) with
    [ticker.upper()]. *)
Definition add_to_watchlist (now : Z) (uid : Z) (tk : pystr) (db : database)
  : database :=
  let k := watchlist_seq db + 1 in
  {| users := users db;
     watchlist := watchlist db ++
       [{| id := k; w_user_id := uid; ticker := upper tk; added_at := now |}];
     watchlist_seq := k |}.

(** [get_watchlist]: SELECT ticker FROM watchlist WHERE user_id = ?. *)
Definition get_watchlist (uid : Z) (db : database) : list pystr :=
  map ticker (List.filter (fun r => w_user_id r =? uid) (watchlist db)).

(** A run of [add_to_watchlist] calls, each with its clock value, user and
    ticker, in call order. *)
Fixpoint add_all (calls : list (Z * Z * pystr)) (db : database) : database :=
  match calls with
  | [] => db
  | (now, uid, tk) :: r => add_all r (add_to_watchlist now uid tk db)
  end.

End Operations.
End Store.
Import Store.

(** ** The world the handlers run in *)

(** [UserStates]: the states the FSM storage can hold for a key.  A key
    with no entry is in no state (the spec's Idle). *)
Inductive UserStates := waiting_for_ticker | setting_alert | calculator_input.

(** The two provider operations ([function=] of the query). *)
Inductive api_function := GLOBAL_QUOTE | OVERVIEW.

(** An inline button: its label and its [callback_data]. *)
Record button := { label : pystr; callback_data : pystr }.

(** What the bot hands to the chat transport. *)
Inductive outgoing :=
| Answer (chat : Z) (body : pystr) (buttons : list button)
| CallbackAnswer (query_from : Z) (body : pystr).

Record world := {
  (** the SQLite file *)
  db : database;
  (** [MemoryStorage]: the state of each (chat, user) key *)
  fsm : gmap (Z * Z) UserStates;
  (** messages sent so far, oldest first *)
  outbox : list outgoing;
  (** HTTP requests issued so far *)
  requests : nat;
  (** the provider and the network: the outcome of [session.get] followed
      by [response.json()] for the request with this number *)
  provider : nat -> api_function -> pystr -> res json;
  (** the clock *)
  clock : Z;
  (** what [logger.error] recorded: the ticker and the exception *)
  errors : list (pystr * exn)
}.

(** An inbound text message and an inbound button press. *)
Record message := { chat_id : Z; from_user : Z; text : pystr }.
Record callback := { presser : Z; data : pystr; shown_in : Z }.

(** A coroutine of the bot: it runs on a world and returns or raises,
    leaving the world as changed up to that point. *)
Definition M (A : Type) : Type := world -> res A * world.

Definition ret {A} (a : A) : M A := fun w => (Ok a, w).

Definition bind {A B} (m : M A) (k : A -> M B) : M B :=
  fun w =>
    match m w with
    | (Ok a, w') => k a w'
    | (Raise e, w') => (Raise e, w')
    end.

Notation "x <~ m ;; k" := (bind m (fun x => k))
  (at level 100, m at next level, right associativity, only parsing).
Notation "m ;;; k" := (bind m (fun _ => k))
  (at level 100, right associativity, only parsing).

(** An expression evaluated inside a coroutine. *)
Definition eval {A} (r : res A) : M A := fun w => (r, w).

(** [try: body  except Exception as e: handler e]. *)
Definition try_except {A} (body : M A) (handler : exn -> M A) : M A :=
  fun w =>
    match body w with
    | (Ok a, w') => (Ok a, w')
    | (Raise e, w') => handler e w'
    end.

Definition send (o : outgoing) : M unit :=
  fun w =>
    (Ok tt,
     {| db := db w; fsm := fsm w; outbox := outbox w ++ [o];
        requests := requests w; provider := provider w; clock := clock w;
        errors := errors w |}).

(** [message.answer(body, reply_markup=buttons)]. *)
Definition answer (m : message) (body : pystr) (buttons : list button) : M unit :=
  send (Answer (chat_id m) body buttons).

(** [session.get(url, params)] and [response.json()]. *)
Definition http_get_json (fn : api_function) (symbol : pystr) : M json :=
  fun w =>
    (provider w (requests w) fn symbol,
     {| db := db w; fsm := fsm w; outbox := outbox w;
        requests := S (requests w); provider := provider w; clock := clock w;
        errors := errors w |}).

Definition log_error (tk : pystr) (e : exn) : M unit :=
  fun w =>
    (Ok tt,
     {| db := db w; fsm := fsm w; outbox := outbox w;
        requests := requests w; provider := provider w; clock := clock w;
        errors := errors w ++ [(tk, e)] |}).

Definition with_fsm (f : gmap (Z * Z) UserStates -> gmap (Z * Z) UserStates)
  : M unit :=
  fun w =>
    (Ok tt,
     {| db := db w; fsm := f (fsm w); outbox := outbox w;
        requests := requests w; provider := provider w; clock := clock w;
        errors := errors w |}).

(** [state.set_state(s)] and [state.clear()] of the FSM context of [m]. *)
Definition set_state (m : message) (s : UserStates) : M unit :=
  with_fsm (fun f => <[(chat_id m, from_user m) := s]> f).

Definition clear_state (m : message) : M unit :=
  with_fsm (fun f => delete (chat_id m, from_user m) f).

Definition state_of (w : world) (m : message) : option UserStates :=
  fsm w !! (chat_id m, from_user m).

Definition with_db (f : Z -> database -> res database) : M unit :=
  fun w =>
    match f (clock w) (db w) with
    | Ok d =>
        (Ok tt,
         {| db := d; fsm := fsm w; outbox := outbox w;
            requests := requests w; provider := provider w; clock := clock w;
            errors := errors w |})
    | Raise e => (Raise e, w)
    end.

Definition read_db {A} (f : database -> A) : M A := fun w => (Ok (f (db w)), w).

Definition read_clock : M Z := fun w => (Ok (clock w), w).

(** ** The quote client *)

(** The dict [get_stock_data] returns.  [symbol] and [change_percent] are
    passed on as the provider sent them; the other fields went through
    [float()] or [int()]. *)
Record quote := {
  symbol : json;
  price : float;
  change : float;
  change_percent : json;
  volume : Z;
  high : float;
  low : float;
  open : float;
  previous_close : float
}.

Section Bot.
Context `{Runtime}.

(** The body of the [try] of [get_stock_data] after the response arrived:
    the fall-through of the [if] is Python's implicit [return None]. *)
Definition quote_of_response (data : json) : res (option quote) :=
  has <- contains data (lit "Global Quote") ;;
  if has : bool then
    q <- subscript data (lit "Global Quote") ;;
    v_symbol <- dict_get q (lit "01. symbol") (JStr (lit "")) ;;
    v_price <- dict_get q (lit "05. price") (JInt 0) ;;
    f_price <- to_float v_price ;;
    v_change <- dict_get q (lit "09. change") (JInt 0) ;;
    f_change <- to_float v_change ;;
    v_percent <- dict_get q (lit "10. change percent") (JStr (lit "0%")) ;;
    v_volume <- dict_get q (lit "06. volume") (JInt 0) ;;
    i_volume <- to_int v_volume ;;
    v_high <- dict_get q (lit "03. high") (JInt 0) ;;
    f_high <- to_float v_high ;;
    v_low <- dict_get q (lit "04. low") (JInt 0) ;;
    f_low <- to_float v_low ;;
    v_open <- dict_get q (lit "02. open") (JInt 0) ;;
    f_open <- to_float v_open ;;
    v_close <- dict_get q (lit "08. previous close") (JInt 0) ;;
    f_close <- to_float v_close ;;
    Ok (Some {| symbol := v_symbol; price := f_price; change := f_change;
                change_percent := v_percent; volume := i_volume;
                high := f_high; low := f_low; open := f_open;
                previous_close := f_close |})
  else Ok None.

Definition get_stock_data (tk : pystr) : M (option quote) :=
  try_except
    (data <~ http_get_json GLOBAL_QUOTE tk ;;
     eval (quote_of_response data))
    (fun e => log_error tk e ;;; ret None).

Definition overview_of_response (data : json) : res (option json) :=
  has <- contains data (lit "Symbol") ;;
  if has : bool then Ok (Some data) else Ok None.

Definition get_company_overview (tk : pystr) : M (option json) :=
  try_except
    (data <~ http_get_json OVERVIEW tk ;;
     eval (overview_of_response data))
    (fun e => log_error tk e ;;; ret None).

(** ** Presentation *)

Definition up_emoji : pystr := lit "📈".
Definition down_emoji : pystr := lit "📉".

Definition analysis_text (q : quote) (now : Z) : pystr :=
  let change_emoji := if PyFloat.gt0 (change q) then up_emoji else down_emoji in
  let change_color := if PyFloat.gt0 (change q) then lit "🟢" else lit "🔴" in
  lit "
📊 <b>Аналіз акції "
  ++ to_str (symbol q)
  ++ lit "</b>

💰 <b>Поточна ціна:</b> $"
  ++ PyFloat.fixed2 false (price q)
  ++ lit "
"
  ++ change_emoji
  ++ lit " <b>Зміна:</b> "
  ++ change_color
  ++ lit " $"
  ++ PyFloat.fixed2 true (change q)
  ++ lit " ("
  ++ to_str (change_percent q)
  ++ lit ")

📈 <b>Максимум дня:</b> $"
  ++ PyFloat.fixed2 false (high q)
  ++ lit "
📉 <b>Мінімум дня:</b> $"
  ++ PyFloat.fixed2 false (low q)
  ++ lit "
🎯 <b>Ціна відкриття:</b> $"
  ++ PyFloat.fixed2 false (open q)
  ++ lit "
🔒 <b>Попереднє закриття:</b> $"
  ++ PyFloat.fixed2 false (previous_close q)
  ++ lit "
📊 <b>Об'єм торгів:</b> "
  ++ str_of_int_grouped (volume q)
  ++ lit "

⏰ <b>Оновлено:</b> "
  ++ strftime_now now
  ++ lit "
        ".

(** The payload of the button that adds [tk] to the watch-list. *)
Definition add_watchlist_payload (tk : pystr) : pystr :=
  lit "add_watchlist_" ++ tk.

Definition analysis_buttons (tk : pystr) : list button :=
  [ {| label := lit "➕ Додати до списку";
       callback_data := add_watchlist_payload tk |};
    {| label := lit "🏢 Огляд компанії";
       callback_data := lit "overview_" ++ tk |} ].

(** The four quantities of the calculator, in the order the source
    computes them. *)
Record calculation := {
  total_invested : float;
  current_value : float;
  profit_loss : float;
  profit_percent : float
}.

(** [z * f] and [f * z] for an [int] and a [float]: the [int] is converted
    first. *)
Definition int_mul_float (z : Z) (f : float) : res float :=
  x <- PyFloat.of_int z ;; Ok (x * f)%float.

Definition float_mul_int (f : float) (z : Z) : res float :=
  x <- PyFloat.of_int z ;; Ok (f * x)%float.

Definition calculate (shares : Z) (buy_price current_price : float)
  : res calculation :=
  invested <- int_mul_float shares buy_price ;;
  value <- int_mul_float shares current_price ;;
  let pl := (value - invested)%float in
  ratio <- PyFloat.truediv pl invested ;;
  percent <- float_mul_int ratio 100 ;;
  Ok {| total_invested := invested; current_value := value;
        profit_loss := pl; profit_percent := percent |}.

(** The f-string of [process_calculator] up to the profit line. *)
Definition result_head (tk : pystr) (shares : Z) (buy_price current_price : float)
  (c : calculation) : pystr :=
  let total_invested := total_invested c in
  let current_value := current_value c in
  lit "
🧮 <b>Розрахунок інвестицій</b>

📊 <b>Акція:</b> "
  ++ upper tk
  ++ lit "
💰 <b>Поточна ціна:</b> $"
  ++ PyFloat.fixed2 false current_price
  ++ lit "
🔢 <b>Кількість акцій:</b> "
  ++ str_of_int shares
  ++ lit "
💵 <b>Ціна покупки:</b> $"
  ++ PyFloat.fixed2 false buy_price
  ++ lit "

💸 <b>Інвестовано:</b> $"
  ++ PyFloat.fixed2 false total_invested
  ++ lit "
💰 <b>Поточна вартість:</b> $"
  ++ PyFloat.fixed2 false current_value
  ++ lit "

".

(** The whole f-string; its last line opens with the indicator. *)
Definition result_text (tk : pystr) (shares : Z) (buy_price current_price : float)
  (c : calculation) : pystr :=
  let profit_loss := profit_loss c in
  let profit_percent := profit_percent c in
  let profit_emoji := if PyFloat.gt0 profit_loss then up_emoji else down_emoji in
  result_head tk shares buy_price current_price c
  ++ profit_emoji
  ++ lit " <b>Прибуток/Збиток:</b> $"
  ++ PyFloat.fixed2 false profit_loss
  ++ lit " ("
  ++ PyFloat.fixed2 true profit_percent
  ++ lit "%)
                ".

Definition format_error_text : pystr :=
  lit "❌ Помилка в форматі даних!" ++ nl ++ nl
  ++ lit "Використовуйте формат: <code>TICKER кількість ціна</code>" ++ nl
  ++ lit "Приклад: <code>AAPL 10 150.50</code>".

Definition calculator_not_found_text : pystr :=
  lit "❌ Не вдалося знайти дані для цієї акції".

(** The f-string of [send_company_overview] up to the description; its
    fields are evaluated left to right, and each [.get] may raise. *)
Definition overview_head (overview_data : json) (tk : pystr) : res pystr :=
  f_Symbol <- dict_get overview_data (lit "Symbol") (JStr tk) ;;
  f_Name <- dict_get overview_data (lit "Name") (JStr (lit "N/A")) ;;
  f_Sector <- dict_get overview_data (lit "Sector") (JStr (lit "N/A")) ;;
  f_Industry <- dict_get overview_data (lit "Industry") (JStr (lit "N/A")) ;;
  f_Country <- dict_get overview_data (lit "Country") (JStr (lit "N/A")) ;;
  f_MarketCapitalization <-
    dict_get overview_data (lit "MarketCapitalization") (JStr (lit "N/A")) ;;
  f_PERatio <- dict_get overview_data (lit "PERatio") (JStr (lit "N/A")) ;;
  f_EPS <- dict_get overview_data (lit "EPS") (JStr (lit "N/A")) ;;
  f_DividendYield <-
    dict_get overview_data (lit "DividendYield") (JStr (lit "N/A")) ;;
  f_52WeekHigh <- dict_get overview_data (lit "52WeekHigh") (JStr (lit "N/A")) ;;
  f_52WeekLow <- dict_get overview_data (lit "52WeekLow") (JStr (lit "N/A")) ;;
  Ok (lit "
🏢 <b>Огляд компанії "
  ++ to_str f_Symbol
  ++ lit "</b>

📝 <b>Назва:</b> "
  ++ to_str f_Name
  ++ lit "
🏭 <b>Сектор:</b> "
  ++ to_str f_Sector
  ++ lit "
🔧 <b>Індустрія:</b> "
  ++ to_str f_Industry
  ++ lit "
🌍 <b>Країна:</b> "
  ++ to_str f_Country
  ++ lit "

💹 <b>Ринкова капіталізація:</b> $"
  ++ to_str f_MarketCapitalization
  ++ lit "
💰 <b>P/E коефіцієнт:</b> "
  ++ to_str f_PERatio
  ++ lit "
📊 <b>EPS:</b> "
  ++ to_str f_EPS
  ++ lit "
💵 <b>Дивіденди:</b> "
  ++ to_str f_DividendYield
  ++ lit "

📈 <b>52-тижневий максимум:</b> $"
  ++ to_str f_52WeekHigh
  ++ lit "
📉 <b>52-тижневий мінімум:</b> $"
  ++ to_str f_52WeekLow
  ++ lit "

📄 <b>Опис:</b> ").

(** What follows the description in that f-string. *)
Definition overview_tail : pystr :=
  lit "...
        ".

(** The whole f-string: the description is read last, cut by [[:500]]. *)
Definition overview_text (overview_data : json) (tk : pystr) : res pystr :=
  head <- overview_head overview_data tk ;;
  v_Description <-
    dict_get overview_data (lit "Description") (JStr (lit "Опис недоступний")) ;;
  f_Description <- slice_to 500 v_Description ;;
  Ok (head ++ to_str f_Description ++ overview_tail).

(** ** Handlers *)

Definition send_stock_analysis (m : message) (tk : pystr) : M unit :=
  answer m (lit "🔍 Шукаю дані...") [] ;;;
  stock_data <~ get_stock_data tk ;;
  match stock_data with
  | None => answer m (lit "❌ Не вдалося знайти дані для " ++ tk) []
  | Some q =>
      now <~ read_clock ;;
      answer m (analysis_text q now) (analysis_buttons tk)
  end.

Definition send_company_overview (m : message) (tk : pystr) : M unit :=
  answer m (lit "🔍 Завантажую дані про компанію...") [] ;;;
  overview_data <~ get_company_overview tk ;;
  match overview_data with
  | None => answer m (lit "❌ Не вдалося знайти дані про компанію " ++ tk) []
  | Some d =>
      if truthy d then
        body <~ eval (overview_text d tk) ;;
        answer m body []
      else answer m (lit "❌ Не вдалося знайти дані про компанію " ++ tk) []
  end.

Definition watchlist_empty_text : pystr :=
  lit "📋 Ваш список відстеження порожній." ++ nl
  ++ lit "Додайте акції командою /stock [TICKER] та натисніть 'Додати до списку'".

Definition watchlist_header : pystr :=
  lit "📋 <b>Ваш список відстеження:</b>" ++ nl ++ nl.

(** The [for] loop of [watchlist_command]; [text] is the text built so
    far. *)
Fixpoint watchlist_loop (tickers : list pystr) (text : pystr) : M pystr :=
  match tickers with
  | [] => ret text
  | tk :: rest =>
      stock_data <~ get_stock_data tk ;;
      match stock_data with
      | Some q =>
          let change_emoji :=
            if PyFloat.gt0 (change q) then up_emoji else down_emoji in
          let text :=
            text ++ (change_emoji ++ lit " <b>" ++ tk ++ lit "</b>: $"
                     ++ PyFloat.fixed2 false (price q) ++ lit " ") in
          let text := text ++ (lit "(" ++ to_str (change_percent q) ++ lit ")" ++ nl) in
          watchlist_loop rest text
      | None =>
          let text := text ++ (lit "• <b>" ++ tk ++ lit "</b>: Дані недоступні" ++ nl) in
          watchlist_loop rest text
      end
  end.

Definition watchlist_command (m : message) : M unit :=
  wl <~ read_db (get_watchlist (from_user m)) ;;
  match wl with
  | [] => answer m watchlist_empty_text []
  | _ =>
      text <~ watchlist_loop wl watchlist_header ;;
      answer m text []
  end.

Definition calculator_prompt : pystr :=
  lit "🧮 <b>Калькулятор інвестицій</b>" ++ nl ++ nl
  ++ lit "Введіть дані у форматі:" ++ nl
  ++ lit "<code>TICKER кількість_акцій ціна_покупки</code>" ++ nl ++ nl
  ++ lit "Приклад: <code>AAPL 10 150.50</code>".

Definition calculator_command (m : message) : M unit :=
  answer m calculator_prompt [] ;;;
  set_state m calculator_input.



(** [callback.data.split("_")[2]]. *)
Definition ticker_of_payload (payload : pystr) : res pystr :=
  index (split_on underscore payload) 2.

Definition add_watchlist_callback (cb : callback) : M unit :=
  tk <~ eval (ticker_of_payload (data cb)) ;;
  with_db (fun now d => Ok (add_to_watchlist now (presser cb) tk d)) ;;;
  send (CallbackAnswer (presser cb)
          (lit "✅ " ++ tk ++ lit " додано до списку відстеження!")).

Definition process_ticker (m : message) : M unit :=
  let tk := strip (upper (text m)) in
  send_stock_analysis m tk ;;;
  clear_state m.

(** How the [try] statement of [process_calculator] was left: by running
    off its end (or the end of its [except] clause), or by the [return]
    inside it. *)
Inductive flow := Completed | Returned.

Definition process_calculator (m : message) : M unit :=
  fl <~ try_except
    (let parts := split_ws (strip (text m)) in
     match parts with
     | [tk; shares_str; buy_price_str] =>
         shares <~ eval (or_value_error (int_of_str shares_str)) ;;
         buy_price <~ eval (or_value_error (float_of_str buy_price_str)) ;;
         stock_data <~ get_stock_data (upper tk) ;;
         match stock_data with
         | None =>
             answer m calculator_not_found_text [] ;;;
             ret Returned
         | Some q =>
             let current_price := price q in
             c <~ eval (calculate shares buy_price current_price) ;;
             answer m (result_text tk shares buy_price current_price c) [] ;;;
             ret Completed
         end
     | _ => eval (Raise ValueError)
     end)
    (fun e =>
       answer m format_error_text [] ;;;
       ret Completed) ;;
  match fl with
  | Returned => ret tt
  | Completed => clear_state m
  end.

(** ** The watch-list render, line by line

    [fetched] is the outcome of one quote fetch as a function of what the
    provider answered; [watchlist_lines] is the render as the specification
    words it: one line per ticker, in order, the [n]-th request serving
    the first ticker. *)

Definition fetched (answer : res json) : option quote :=
  match answer with
  | Ok data =>
      match quote_of_response data with
      | Ok o => o
      | Raise _ => None
      end
  | Raise _ => None
  end.

Definition data_line (tk : pystr) (q : quote) : pystr :=
  (if PyFloat.gt0 (change q) then up_emoji else down_emoji)
  ++ lit " <b>" ++ tk ++ lit "</b>: $" ++ PyFloat.fixed2 false (price q)
  ++ lit " (" ++ to_str (change_percent q) ++ lit ")" ++ nl.

Definition unavailable_line (tk : pystr) : pystr :=
  lit "• <b>" ++ tk ++ lit "</b>: Дані недоступні" ++ nl.

Definition watchlist_line (tk : pystr) (o : option quote) : pystr :=
  match o with
  | Some q => data_line tk q
  | None => unavailable_line tk
  end.

Fixpoint watchlist_lines (prov : nat -> api_function -> pystr -> res json)
  (n : nat) (tickers : list pystr) : list pystr :=
  match tickers with
  | [] => []
  | tk :: rest =>
      watchlist_line tk (fetched (prov n GLOBAL_QUOTE tk))
      :: watchlist_lines prov (S n) rest
  end.

(** The exception one quote fetch logs, if any, and the world it leaves:
    one more request issued, the exception logged. *)
Definition fetch_error (answer : res json) : option exn :=
  match answer with
  | Ok data =>
      match quote_of_response data with
      | Ok _ => None
      | Raise e => Some e
      end
  | Raise e => Some e
  end.

Definition after_fetch (tk : pystr) (w : world) : world :=
  {| db := db w; fsm := fsm w; outbox := outbox w;
     requests := S (requests w); provider := provider w; clock := clock w;
     errors := match fetch_error (provider w (requests w) GLOBAL_QUOTE tk) with
               | Some e => errors w ++ [(tk, e)]
               | None => errors w
               end |}.

Fixpoint after_fetches (tickers : list pystr) (w : world) : world :=
  match tickers with
  | [] => w
  | tk :: rest => after_fetches rest (after_fetch tk w)
  end.


(** The world after one message was sent, and after [state.clear()]. *)
Definition sent (o : outgoing) (w : world) : world := snd (send o w).

Definition cleared (m : message) (w : world) : world := snd (clear_state m w).

(** The calculator input a message text parses to: three whitespace
    separated tokens, the second accepted by [int()], the third by
    [float()]. *)
Definition parsed_input (t : pystr) : option (pystr * Z * float) :=
  match split_ws (strip t) with
  | [tk; shares_str; buy_price_str] =>
      match int_of_str shares_str, float_of_str buy_price_str with
      | Some shares, Some buy_price => Some (tk, shares, buy_price)
      | _, _ => None
      end
  | _ => None
  end.

End Bot.

(** ** A runtime that evaluates

    [plain_runtime] reads plain decimal literals: an optional sign, digits,
    and for [float()] an optional fraction after a point.  It is a
    fragment of what CPython accepts, enough to run the handlers on the
    inputs of the examples. *)

Module Plain.

Fixpoint all_digits (s : pystr) : bool :=
  match s with
  | [] => true
  | c :: r => ((48 <=? c) && (c <=? 57))%N && all_digits r
  end.

Definition nat_value (s : pystr) : Z :=
  fold_left (fun acc c => acc * 10 + (Z.of_N c - 48)) s 0.

Definition unsigned (s : pystr) : option Z :=
  match s with
  | [] => None
  | _ => if all_digits s then Some (nat_value s) else None
  end.

Definition signed {A} (f : bool -> pystr -> option A) (s : pystr) : option A :=
  match s with
  | 45%N :: r => f true r
  | 43%N :: r => f false r
  | _ => f false s
  end.

Definition parse_int (s : pystr) : option Z :=
  signed (fun neg r =>
            match unsigned r with
            | Some n => Some (if neg then - n else n)
            | None => None
            end) (strip s).

(** The binary64 nearest to [n / d], ties to even ([d] positive). *)
Definition nearest (neg : bool) (n d : Z) : float :=
  match n with
  | Z0 => if neg then neg_zero else zero
  | Zneg _ => nan
  | Zpos _ =>
      let s := Z.max 0 (Z.log2 d + 64 - Z.log2 n) in
      let q := (n * 2 ^ s) / d in
      let r := (n * 2 ^ s) mod d in
      let l := match r with
               | Z0 => loc_Exact
               | _ => loc_Inexact (2 * r ?= d)
               end in
      match q with
      | Zpos mq => SF2Prim (binary_round_aux prec emax neg q (- s) l)
      | _ => nan
      end
  end.

Definition parse_float (s : pystr) : option float :=
  signed (fun neg r =>
            let ip := before_first 46%N r in
            let fp := skipn (S (length ip)) r in
            match ip ++ fp with
            | [] => None
            | ds =>
                if all_digits ds
                then Some (nearest neg (nat_value ds) (10 ^ Z.of_nat (length fp)))
                else None
            end) (strip s).

End Plain.

#[local] Instance plain_runtime : Runtime := {|
  int_of_str := Plain.parse_int;
  float_of_str := Plain.parse_float;
  unicode_upper := fun c => [c];
  repr_other := fun _ => lit "?";
  strftime_now := fun t => str_of_int t
|}.

(** ** Worlds and provider answers for the examples *)

Definition fresh_world (d : database) (states : gmap (Z * Z) UserStates)
  (prov : nat -> api_function -> pystr -> res json) : world :=
  {| db := d; fsm := states; outbox := []; requests := 0; provider := prov;
     clock := 1700000000; errors := [] |}.

(** A network that is down. *)
Definition offline : nat -> api_function -> pystr -> res json :=
  fun _ _ _ => Raise ClientError.

(** A provider that answers every quote request with these figures. *)
Definition quote_body (sym price_s change_s percent_s : string) : json :=
  JDict [(lit "Global Quote",
          JDict [(lit "01. symbol", JStr (lit sym));
                 (lit "05. price", JStr (lit price_s));
                 (lit "09. change", JStr (lit change_s));
                 (lit "10. change percent", JStr (lit percent_s))])].

Definition quoting (sym price_s change_s percent_s : string)
  : nat -> api_function -> pystr -> res json :=
  fun _ _ _ => Ok (quote_body sym price_s change_s percent_s).

(** A provider whose first answer is a quote and whose later answers say
    the symbol is unknown. *)
Definition first_only (sym price_s change_s percent_s : string)
  : nat -> api_function -> pystr -> res json :=
  fun n _ _ =>
    match n with
    | O => Ok (quote_body sym price_s change_s percent_s)
    | S _ => Ok (JDict [(lit "Error Message", JStr (lit "Invalid API call."))])
    end.

(** A user writing in a private chat. *)
Definition private_message (user : Z) (t : string) : message :=
  {| chat_id := user; from_user := user; text := lit t |}.

(** ** Commands, the preset list and the other button presses *)

Section Commands.
Context `{Runtime}.

(** [stock_command]: [args = message.text.split()], a usage hint when
    there is no second token, else the analysis of [args[1].upper()]. *)
Definition stock_command (m : message) : M unit :=
  let args := split_ws (text m) in
  if (length args <? 2)%nat then
    answer m (lit "Введіть тікер акції. Приклад: /stock AAPL") []
  else
    arg <~ eval (index args 1) ;;
    send_stock_analysis m (upper arg).

Definition overview_command (m : message) : M unit :=
  let args := split_ws (text m) in
  if (length args <? 2)%nat then
    answer m (lit "Введіть тікер компанії. Приклад: /overview AAPL") []
  else
    arg <~ eval (index args 1) ;;
    send_company_overview m (upper arg).

(** The two buttons that only forward to a command handler. *)
Definition my_watchlist_button (m : message) : M unit := watchlist_command m.

Definition calculator_button (m : message) : M unit := calculator_command m.

Definition top_stocks : list pystr :=
  [lit "AAPL"; lit "MSFT"; lit "GOOGL"; lit "AMZN"; lit "TSLA"; lit "META";
   lit "NVDA"; lit "JPM"].

(** The payload of the preset button of [stock]. *)
Definition analyze_payload (stock : pystr) : pystr := lit "analyze_" ++ stock.

(** The payload of the "company overview" button under an analysis. *)
Definition overview_payload (tk : pystr) : pystr := lit "overview_" ++ tk.

Definition top_stocks_button (m : message) : M unit :=
  answer m
    (lit "📈 <b>Популярні акції:</b>" ++ nl ++ nl ++ lit "Оберіть акцію для аналізу:")
    (map (fun stock => {| label := stock; callback_data := analyze_payload stock |})
         top_stocks).

(** [callback.data.split("_")[1]]. *)
Definition second_field (payload : pystr) : res pystr :=
  index (split_on underscore payload) 1.

(** [analyze_callback] and [overview_callback].  [shown] is
    [callback.message], the bot's message the pressed button hangs under;
    [callback.answer()] carries no text. *)
Definition analyze_callback (cb : callback) (shown : message) : M unit :=
  tk <~ eval (second_field (data cb)) ;;
  send_stock_analysis shown tk ;;;
  send (CallbackAnswer (presser cb) []).

Definition overview_callback (cb : callback) (shown : message) : M unit :=
  tk <~ eval (second_field (data cb)) ;;
  send_company_overview shown tk ;;;
  send (CallbackAnswer (presser cb) []).

End Commands.

(** ** Invariants of the tables *)

(** [users]: [user_id] is the primary key. *)
Definition unique_users (d : database) : Prop :=
  List.NoDup (map user_id (users d)).



(** The quote built from a "Global Quote" object with no field at all. *)
Definition zero_quote : quote :=
  {| symbol := JStr (lit ""); price := 0; change := 0;
     change_percent := JStr (lit "0%"); volume := 0; high := 0; low := 0;
     open := 0; previous_close := 0 |}.


(** ** Proof tools *)


(** ** Checks of the string and number helpers on concrete values *)

Example lit_ascii : lit "AAPL" = [65; 65; 80; 76]%N.
Proof. reflexivity. Qed.

Example lit_cyrillic : lit "Дані" = [1044; 1072; 1085; 1110]%N.
Proof. reflexivity. Qed.

Example lit_emoji : lit "📈" = [128200]%N.
Proof. reflexivity. Qed.

Example split_ws_example :
  split_ws (lit "  AAPL 10   150.50 ") = [lit "AAPL"; lit "10"; lit "150.50"].
Proof. reflexivity. Qed.

Example split_on_example :
  split_on underscore (lit "add_watchlist_BRK_B")
  = [lit "add"; lit "watchlist"; lit "BRK"; lit "B"].
Proof. reflexivity. Qed.

Example str_of_int_example :
  str_of_int (-1505) = lit "-1505" /\ str_of_int 0 = lit "0"
  /\ str_of_int_grouped 1234567 = lit "1,234,567"
  /\ str_of_int_grouped 123 = lit "123"
  /\ str_of_int_grouped (-1000) = lit "-1,000".
Proof. repeat split; reflexivity. Qed.

Example of_int_example :
  PyFloat.of_int 10 = Ok 10%float /\ PyFloat.of_int (-3) = Ok (-3)%float
  /\ PyFloat.of_int (2 ^ 53 + 1) = Ok 9007199254740992%float
  /\ PyFloat.of_int (10 ^ 400) = Raise OverflowError.
Proof. repeat split; vm_compute; reflexivity. Qed.

Example fixed2_example :
  PyFloat.fixed2 false 1505%float = lit "1505.00"
  /\ PyFloat.fixed2 false 0.125%float = lit "0.12"
  /\ PyFloat.fixed2 false 0.375%float = lit "0.38"
  /\ PyFloat.fixed2 true 6.3125%float = lit "+6.31"
  /\ PyFloat.fixed2 true (-0.0009765625)%float = lit "-0.00"
  /\ PyFloat.fixed2 false infinity = lit "inf"
  /\ PyFloat.fixed2 true nan = lit "+nan".
Proof. repeat split; vm_compute; reflexivity. Qed.

Example trunc_example :
  PyFloat.trunc 1234.75%float = Ok 1234 /\ PyFloat.trunc (-0.5)%float = Ok 0
  /\ PyFloat.trunc 1e20%float = Ok (10 ^ 20)
  /\ PyFloat.trunc nan = Raise ValueError.
Proof. repeat split; vm_compute; reflexivity. Qed.

Example plain_runtime_example :
  int_of_str (lit "10") = Some 10 /\ int_of_str (lit "-7") = Some (-7)
  /\ int_of_str (lit "1.5") = None /\ int_of_str (lit "ten") = None
  /\ float_of_str (lit "150.50") = Some 150.5%float
  /\ float_of_str (lit "0") = Some 0%float
  /\ float_of_str (lit "-0.25") = Some (-0.25)%float
  /\ float_of_str (lit "0.1") = Some 0x1.999999999999ap-4%float
  /\ float_of_str (lit "abc") = None.
Proof. repeat split; vm_compute; reflexivity. Qed.

(** * Properties *)

(** ** Strings *)

Lemma split_on_go_head (sep : N) (s cur : pystr) :
  hd_error (split_on_go sep s cur) = Some (cur ++ before_first sep s).
Proof.
  revert cur. induction s as [|c r IH]; intros cur; simpl.
  - now rewrite app_nil_r.
  - destruct (c =? sep)%N; simpl.
    + now rewrite app_nil_r.
    + rewrite IH. now rewrite <- app_assoc.
Qed.

Lemma before_first_absent (sep : N) (s : pystr) :
  ~ In sep s -> before_first sep s = s.
Proof.
  induction s as [|c r IH]; simpl; intros Hn; [reflexivity|].
  destruct (N.eqb_spec c sep) as [->|Hne].
  - exfalso. apply Hn. now left.
  - f_equal. apply IH. intros Hin. apply Hn. now right.
Qed.

Lemma before_first_shorter (sep : N) (s : pystr) :
  In sep s -> (length (before_first sep s) < length s)%nat.
Proof.
  induction s as [|c r IH]; simpl; intros Hin; [contradiction|].
  destruct (N.eqb_spec c sep) as [->|Hne]; simpl; [lia|].
  destruct Hin as [->|Hin]; [congruence|]. specialize (IH Hin). lia.
Qed.

Lemma before_first_has_none (sep : N) (s : pystr) :
  ~ In sep (before_first sep s).
Proof.
  induction s as [|c r IH]; simpl; [tauto|].
  destruct (N.eqb_spec c sep) as [->|Hne]; simpl; [tauto|].
  intros [Heq|Hin]; [congruence|tauto].
Qed.

Lemma ticker_of_payload_add (tk : pystr) :
  ticker_of_payload (add_watchlist_payload tk) = Ok (before_first underscore tk).
Proof.
  unfold ticker_of_payload, add_watchlist_payload, split_on.
  let l := eval vm_compute in (lit "add_watchlist_") in
  change (lit "add_watchlist_") with l.
  cbn [app split_on_go N.eqb Pos.eqb underscore].
  unfold index. cbn [nth_error].
  pose proof (split_on_go_head underscore tk []) as Hh.
  destruct (split_on_go underscore tk []) as [|x r]; simpl in Hh; [discriminate|].
  injection Hh as ->. reflexivity.
Qed.

(** C9: the payload of the "add to watchlist" button, split on "_" and read
    at index 2, gives back the ticker exactly when the ticker has no
    underscore; a ticker with one comes back cut before its first
    underscore, which is a different string. *)
Theorem add_watchlist_payload_round_trip (tk : pystr) :
  (~ In underscore tk ->
     ticker_of_payload (add_watchlist_payload tk) = Ok tk)
  /\ (In underscore tk ->
        ticker_of_payload (add_watchlist_payload tk)
          = Ok (before_first underscore tk)
        /\ before_first underscore tk <> tk
        /\ ~ In underscore (before_first underscore tk)).
Proof.
  rewrite ticker_of_payload_add. split.
  - intros Hn. now rewrite before_first_absent.
  - intros Hin. split; [reflexivity|]. split.
    + intros Heq. apply before_first_shorter in Hin. rewrite Heq in Hin. lia.
    + apply before_first_has_none.
Qed.

Lemma add_watchlist_payload_round_trip_witness :
  ticker_of_payload (add_watchlist_payload (lit "TSLA")) = Ok (lit "TSLA")
  /\ ticker_of_payload (add_watchlist_payload (lit "BRK_B")) = Ok (lit "BRK").
Proof.
  split.
  - apply (proj1 (add_watchlist_payload_round_trip (lit "TSLA"))).
    vm_compute. intuition discriminate.
  - apply (proj1 (proj2 (add_watchlist_payload_round_trip (lit "BRK_B"))
                    ltac:(vm_compute; tauto))).
Defined.

(** ** The store *)

Lemma has_user_rows_of (uid : Z) (t : list user_row) :
  has_user uid t = false -> rows_of uid t = [].
Proof.
  unfold has_user, rows_of. induction t as [|r t IH]; simpl; [reflexivity|].
  destruct (user_id r =? uid); simpl; [discriminate|exact IH].
Qed.

Lemma rows_of_app (uid : Z) (a b : list user_row) :
  rows_of uid (a ++ b) = rows_of uid a ++ rows_of uid b.
Proof. unfold rows_of. apply List.filter_app. Qed.

Lemma rows_of_removed (uid : Z) (t : list user_row) :
  rows_of uid (List.filter (fun x => negb (user_id x =? uid)) t) = [].
Proof.
  unfold rows_of. induction t as [|r t IH]; simpl; [reflexivity|].
  destruct (user_id r =? uid) eqn:E; simpl; [exact IH|].
  rewrite E. exact IH.
Qed.

Lemma rows_of_other (uid uid' : Z) (t : list user_row) :
  uid' <> uid ->
  rows_of uid' (List.filter (fun x => negb (user_id x =? uid)) t) = rows_of uid' t.
Proof.
  intros Hne. unfold rows_of. induction t as [|r t IH]; simpl; [reflexivity|].
  destruct (Z.eqb_spec (user_id r) uid) as [E|E]; simpl.
  - destruct (Z.eqb_spec (user_id r) uid'); [congruence|exact IH].
  - destruct (user_id r =? uid'); [f_equal|]; exact IH.
Qed.

(** After an INSERT OR REPLACE of [r], the table holds [r] and no other
    row of that key, whatever it held before. *)
Lemma insert_replace_rows (r : user_row) (t : list user_row) :
  exists t', insert_user Replace r t = Ok t' /\ rows_of (user_id r) t' = [r].
Proof.
  unfold insert_user. destruct (has_user (user_id r) t) eqn:E.
  - eexists; split; [reflexivity|].
    rewrite rows_of_app, rows_of_removed. unfold rows_of. simpl.
    now rewrite Z.eqb_refl.
  - eexists; split; [reflexivity|].
    rewrite rows_of_app, (has_user_rows_of _ _ E). unfold rows_of. simpl.
    now rewrite Z.eqb_refl.
Qed.

(** A plain INSERT of a taken key is what raises. *)
Lemma insert_abort_duplicate (r : user_row) (t : list user_row) :
  has_user (user_id r) t = true -> insert_user Abort r t = Raise IntegrityError.
Proof. intros E. unfold insert_user. now rewrite E. Qed.

Section StoreProperties.
Context `{Runtime}.

Lemma save_user_rows (now uid : Z) (uname fname : pystr) (d : database) :
  exists d',
    save_user now uid uname fname d = Ok d'
    /\ rows_of uid (users d')
       = [{| user_id := uid; username := uname; first_name := fname;
             created_at := now |}]
    /\ watchlist d' = watchlist d.
Proof.
  unfold save_user.
  destruct (insert_replace_rows
              {| user_id := uid; username := uname; first_name := fname;
                 created_at := now |} (users d)) as (t' & Hi & Hr).
  rewrite Hi. simpl. eexists; split; [reflexivity|]. simpl. now split.
Qed.

(** C4: two [save_user] calls for one id, with any names and at any two
    times, both return, and leave exactly one row of that id, which
    carries the names of the second call. *)
Theorem save_user_twice (d : database) (uid t1 t2 : Z) (u1 f1 u2 f2 : pystr) :
  exists d1 d2 row,
    save_user t1 uid u1 f1 d = Ok d1
    /\ save_user t2 uid u2 f2 d1 = Ok d2
    /\ rows_of uid (users d2) = [row]
    /\ username row = u2 /\ first_name row = f2.
Proof.
  destruct (save_user_rows t1 uid u1 f1 d) as (d1 & H1 & _).
  destruct (save_user_rows t2 uid u2 f2 d1) as (d2 & H2 & Hr & _).
  exists d1, d2. eexists. repeat split; eauto.
Qed.

(** C10: [save_user] on an id that already has a row replaces that row by
    one whose [created_at] is the time of this call; the time the old row
    was created survives only if the two times are equal. *)
Theorem save_user_resets_created_at (d : database) (old : user_row)
  (now : Z) (uname fname : pystr) :
  In old (users d) ->
  exists d' row,
    save_user now (user_id old) uname fname d = Ok d'
    /\ rows_of (user_id old) (users d') = [row]
    /\ created_at row = now
    /\ (created_at old <> now -> ~ In old (users d')).
Proof.
  intros Hold.
  destruct (save_user_rows now (user_id old) uname fname d) as (d' & Hs & Hr & _).
  exists d'. eexists. repeat split; eauto.
  intros Hne Hin.
  assert (In old (rows_of (user_id old) (users d'))) as Hin'.
  { unfold rows_of. apply List.filter_In. split; [exact Hin|apply Z.eqb_refl]. }
  rewrite Hr in Hin'. destruct Hin' as [Heq|[]].
  apply Hne. rewrite <- Heq. reflexivity.
Qed.

End StoreProperties.

Lemma save_user_resets_created_at_witness :
  let first := {| user_id := 42; username := lit "ann"; first_name := lit "Ann";
                  created_at := 1000 |} in
  let d := {| users := [first]; watchlist := []; watchlist_seq := 0 |} in
  exists d' row,
    save_user 2000 42 (lit "ann") (lit "Ann") d = Ok d'
    /\ rows_of 42 (users d') = [row]
    /\ created_at row = 2000
    /\ (created_at first <> 2000 -> ~ In first (users d')).
Proof.
  intros first d.
  apply (save_user_resets_created_at d first 2000 (lit "ann") (lit "Ann")).
  simpl. now left.
Defined.

Section WatchlistStore.
Context `{Runtime}.

Lemma get_watchlist_add (now uid uid' : Z) (tk : pystr) (d : database) :
  get_watchlist uid (add_to_watchlist now uid' tk d)
  = get_watchlist uid d ++ (if uid' =? uid then [upper tk] else []).
Proof.
  unfold get_watchlist, add_to_watchlist. simpl.
  rewrite List.filter_app, map_app. simpl.
  destruct (uid' =? uid); reflexivity.
Qed.

Lemma get_watchlist_add_all (calls : list (Z * Z * pystr)) (d : database) (uid : Z) :
  get_watchlist uid (add_all calls d)
  = get_watchlist uid d
    ++ map (fun c => upper (snd c))
         (List.filter (fun c => snd (fst c) =? uid) calls).
Proof.
  revert d. induction calls as [|[[now uid'] tk] r IH]; intros d; simpl.
  - now rewrite app_nil_r.
  - rewrite IH, get_watchlist_add.
    destruct (uid' =? uid); simpl; rewrite <- app_assoc; reflexivity.
Qed.

Lemma upper_aapl : upper (lit "aapl") = lit "AAPL".
Proof. reflexivity. Qed.

(** C5: every [add_to_watchlist] appends one row that holds the ticker
    upper-cased; [get_watchlist] returns a user's tickers in call order,
    whatever other users added in between; "aapl" is read back as "AAPL";
    and a user with no rows gets the empty list. *)
Theorem watchlist_call_order :
  (forall now uid tk d,
      exists row,
        watchlist (add_to_watchlist now uid tk d) = watchlist d ++ [row]
        /\ ticker row = upper tk /\ w_user_id row = uid)
  /\ (forall calls d uid,
         get_watchlist uid (add_all calls d)
         = get_watchlist uid d
           ++ map (fun c => upper (snd c))
                (List.filter (fun c => snd (fst c) =? uid) calls))
  /\ (forall now uid d,
         In (lit "AAPL") (get_watchlist uid (add_to_watchlist now uid (lit "aapl") d)))
  /\ (forall uid d,
         (forall r, In r (watchlist d) -> w_user_id r <> uid) ->
         get_watchlist uid d = []).
Proof.
  split; [|split; [|split]].
  - intros now uid tk d. eexists. split; [reflexivity|]. now split.
  - apply get_watchlist_add_all.
  - intros now uid d. rewrite get_watchlist_add, Z.eqb_refl, upper_aapl.
    apply in_or_app. right. now left.
  - intros uid d Hno. unfold get_watchlist.
    induction (watchlist d) as [|r t IH]; simpl; [reflexivity|].
    destruct (Z.eqb_spec (w_user_id r) uid) as [E|E].
    + exfalso. apply (Hno r); [now left|exact E].
    + apply IH. intros r' Hin. apply Hno. now right.
Qed.

End WatchlistStore.

Lemma watchlist_call_order_witness :
  get_watchlist 7
    (add_all [(1, 7, lit "aapl"); (2, 8, lit "msft"); (3, 7, lit "tsla")] empty_db)
  = [lit "AAPL"; lit "TSLA"]
  /\ get_watchlist 9 empty_db = [].
Proof.
  split.
  - rewrite (proj1 (proj2 (@watchlist_call_order plain_runtime))). reflexivity.
  - apply (proj2 (proj2 (proj2 (@watchlist_call_order plain_runtime)))).
    simpl. tauto.
Defined.

(** ** Coroutines *)

Section Runs.
Context `{Runtime}.

Lemma get_stock_data_run (tk : pystr) (w : world) :
  get_stock_data tk w
  = (Ok (fetched (provider w (requests w) GLOBAL_QUOTE tk)), after_fetch tk w).
Proof.
  unfold get_stock_data, try_except, bind, http_get_json, eval, log_error, ret,
    fetched, after_fetch, fetch_error.
  simpl. destruct (provider w (requests w) GLOBAL_QUOTE tk) as [data|e]; simpl.
  - destruct (quote_of_response data) as [o|e]; reflexivity.
  - reflexivity.
Qed.

Lemma after_fetches_provider (tickers : list pystr) (w : world) :
  provider (after_fetches tickers w) = provider w
  /\ requests (after_fetches tickers w) = (requests w + length tickers)%nat
  /\ outbox (after_fetches tickers w) = outbox w
  /\ fsm (after_fetches tickers w) = fsm w
  /\ db (after_fetches tickers w) = db w.
Proof.
  revert w. induction tickers as [|tk r IH]; intros w; simpl.
  - repeat split. lia.
  - destruct (IH (after_fetch tk w)) as (Hp & Hr & Ho & Hf & Hd).
    rewrite Hp, Hr, Ho, Hf, Hd. simpl. repeat split. lia.
Qed.

Lemma space_then_paren (x : pystr) : lit " " ++ lit "(" ++ x = lit " (" ++ x.
Proof. reflexivity. Qed.

Lemma watchlist_loop_run (tickers : list pystr) (text : pystr) (w : world) :
  watchlist_loop tickers text w
  = (Ok (text ++ concat (watchlist_lines (provider w) (requests w) tickers)),
     after_fetches tickers w).
Proof.
  revert text w.
  induction tickers as [|tk r IH]; intros text w;
    cbn [watchlist_loop watchlist_lines after_fetches concat].
  - unfold ret. now rewrite app_nil_r.
  - unfold bind at 1. rewrite get_stock_data_run.
    destruct (fetched (provider w (requests w) GLOBAL_QUOTE tk)) as [q|];
      rewrite IH; cbn [watchlist_line provider requests after_fetch];
      unfold data_line, unavailable_line;
      repeat rewrite <- app_assoc; rewrite ?space_then_paren; reflexivity.
Qed.

Lemma watchlist_lines_length prov n (tickers : list pystr) :
  length (watchlist_lines prov n tickers) = length tickers.
Proof.
  revert n. induction tickers as [|tk r IH]; intros n; simpl; [reflexivity|].
  now rewrite IH.
Qed.

Lemma watchlist_lines_nth prov n (tickers : list pystr) (i : nat) (tk : pystr) :
  nth_error tickers i = Some tk ->
  nth_error (watchlist_lines prov n tickers) i
  = Some (watchlist_line tk (fetched (prov (n + i)%nat GLOBAL_QUOTE tk))).
Proof.
  revert n i. induction tickers as [|t r IH]; intros n i Hi.
  - destruct i; discriminate.
  - destruct i as [|i]; simpl in *.
    + injection Hi as ->. now rewrite Nat.add_0_r.
    + rewrite (IH (S n) i Hi).
      now replace (S n + i)%nat with (n + S i)%nat by lia.
Qed.

End Runs.

(** ** The quote client *)

Section QuoteClient.
Context `{Runtime}.





End QuoteClient.

(** ** The watch-list render *)

Section Render.
Context `{Runtime}.

(** C6: the watch-list command answers once and returns; for a non-empty
    list the text is the header followed by one line per stored ticker,
    in stored order, where the line of the [i]-th ticker carries price and
    percent change when the [i]-th fetch succeeded and the "data
    unavailable" text when it returned absent. *)
Theorem watchlist_render (m : message) (w : world) :
  let wl := get_watchlist (from_user m) (db w) in
  let lines := watchlist_lines (provider w) (requests w) wl in
  exists w',
    watchlist_command m w = (Ok tt, w')
    /\ outbox w'
       = outbox w
         ++ [Answer (chat_id m)
               (match wl with
                | [] => watchlist_empty_text
                | _ => watchlist_header ++ concat lines
                end) []]
    /\ length lines = length wl
    /\ forall i tk,
         nth_error wl i = Some tk ->
         nth_error lines i
         = Some (match fetched (provider w (requests w + i)%nat GLOBAL_QUOTE tk) with
                 | Some q => data_line tk q
                 | None => unavailable_line tk
                 end).
Proof.
  intros wl lines. unfold watchlist_command, bind, read_db. fold wl.
  destruct wl as [|tk0 rest] eqn:Ewl.
  - eexists. split; [reflexivity|]. split; [reflexivity|].
    split; [reflexivity|]. intros [|i] tk Hi; discriminate Hi.
  - rewrite watchlist_loop_run. fold lines.
    unfold answer, send. eexists. split; [reflexivity|].
    cbn [outbox].
    destruct (after_fetches_provider (tk0 :: rest) w) as (_ & _ & -> & _).
    split; [reflexivity|]. split.
    + apply watchlist_lines_length.
    + intros i tk Hi. unfold lines.
      rewrite (watchlist_lines_nth _ _ _ _ _ Hi). reflexivity.
Qed.

End Render.

(** ** The company overview *)

Section Overview.
Context `{Runtime}.

Lemma overview_tail_text : overview_tail = lit "..." ++ nl ++ lit "        ".
Proof. reflexivity. Qed.

Lemma overview_head_dict (d : list (pystr * json)) (tk : pystr) :
  exists head, overview_head (JDict d) tk = Ok head.
Proof. unfold overview_head, dict_get. cbn [res_bind]. eexists. reflexivity. Qed.

Lemma get_company_overview_found (tk : pystr) (w : world) (d : list (pystr * json)) :
  provider w (requests w) OVERVIEW tk = Ok (JDict d) ->
  get_item d (lit "Symbol") <> None ->
  exists w',
    get_company_overview tk w = (Ok (Some (JDict d)), w')
    /\ outbox w' = outbox w.
Proof.
  intros Hp Hs.
  unfold get_company_overview, try_except, bind, http_get_json, eval.
  rewrite Hp. unfold overview_of_response, contains.
  destruct (get_item d (lit "Symbol")); [|congruence].
  cbn [res_bind]. eexists. split; reflexivity.
Qed.

(** C7: when the overview the provider returns has a description of more
    than 500 code points, the overview message is the rendered fields,
    then exactly the first 500 code points of the description, then the
    continuation marker "..." and the end of the template. *)
Theorem overview_description_truncated (m : message) (tk : pystr) (w : world)
  (d : list (pystr * json)) (desc : pystr) :
  provider w (requests w) OVERVIEW tk = Ok (JDict d) ->
  get_item d (lit "Symbol") <> None ->
  get_item d (lit "Description") = Some (JStr desc) ->
  (500 < length desc)%nat ->
  exists head w',
    overview_head (JDict d) tk = Ok head
    /\ send_company_overview m tk w = (Ok tt, w')
    /\ outbox w'
       = outbox w
         ++ [Answer (chat_id m) (lit "🔍 Завантажую дані про компанію...") [];
             Answer (chat_id m)
               (head ++ firstn 500 desc ++ lit "..." ++ nl ++ lit "        ") []]
    /\ length (firstn 500 desc) = 500%nat.
Proof.
  intros Hp Hs Hd Hlen.
  destruct (overview_head_dict d tk) as (head & Hhead).
  exists head.
  unfold send_company_overview, answer.
  unfold bind at 1. unfold send at 1.
  set (w1 := {| db := db w; fsm := fsm w;
                outbox := outbox w ++ [Answer (chat_id m) (lit "🔍 Завантажую дані про компанію...") []];
                requests := requests w; provider := provider w; clock := clock w;
                errors := errors w |}).
  destruct (get_company_overview_found tk w1 d Hp Hs) as (w2 & Hrun & Hout).
  unfold bind at 1. rewrite Hrun.
  assert (truthy (JDict d) = true) as ->.
  { destruct d; [|reflexivity]. exfalso. apply Hs. reflexivity. }
  unfold overview_text. rewrite Hhead. unfold dict_get. rewrite Hd.
  unfold bind, eval, send. cbn [res_bind slice_to to_str].
  eexists. split; [reflexivity|]. split; [reflexivity|]. split.
  - cbn [outbox]. rewrite Hout. unfold w1. cbn [outbox].
    rewrite <- app_assoc, overview_tail_text. reflexivity.
  - rewrite List.length_firstn. lia.
Qed.

End Overview.

(** ** The conversation state *)

Section Controller.
Context `{Runtime}.

Lemma state_of_cleared (m : message) (w : world) : state_of (cleared m w) m = None.
Proof. unfold state_of, cleared, clear_state, with_fsm. cbn [snd fsm]. apply lookup_delete_eq. Qed.

Lemma state_of_sent (o : outgoing) (m : message) (w : world) :
  state_of (sent o w) m = state_of w m.
Proof. reflexivity. Qed.

Lemma state_of_after_fetch (tk : pystr) (m : message) (w : world) :
  state_of (after_fetch tk w) m = state_of w m.
Proof. reflexivity. Qed.


Lemma outbox_sent (o : outgoing) (w : world) : outbox (sent o w) = outbox w ++ [o].
Proof. reflexivity. Qed.

Lemma outbox_after_fetch (tk : pystr) (w : world) : outbox (after_fetch tk w) = outbox w.
Proof. reflexivity. Qed.

(** [process_ticker] on any text: two messages go out and the state is
    cleared, whether the fetch succeeded or not. *)
Lemma process_ticker_run (m : message) (w : world) :
  exists w',
    process_ticker m w = (Ok tt, w')
    /\ state_of w' m = None
    /\ exists reply, outbox w' = outbox w ++ [Answer (chat_id m) (lit "🔍 Шукаю дані...") []; reply].
Proof.
  unfold process_ticker, send_stock_analysis, answer.
  unfold bind at 1. unfold bind at 1. unfold send at 1.
  unfold bind at 1. rewrite get_stock_data_run.
  destruct (fetched _) as [q|].
  - unfold bind, read_clock, send, clear_state, with_fsm.
    eexists. split; [reflexivity|]. split.
    + unfold state_of. cbn [fsm]. apply lookup_delete_eq.
    + eexists. cbn [outbox after_fetch]. rewrite <- app_assoc. reflexivity.
  - unfold send, clear_state, with_fsm.
    eexists. split; [reflexivity|]. split.
    + unfold state_of. cbn [fsm]. apply lookup_delete_eq.
    + eexists. cbn [outbox after_fetch]. rewrite <- app_assoc. reflexivity.
Qed.

(** [process_calculator] on a text that does not parse. *)
Lemma process_calculator_rejected (m : message) (w : world) :
  parsed_input (text m) = None ->
  process_calculator m w
  = (Ok tt, cleared m (sent (Answer (chat_id m) format_error_text []) w)).
Proof.
  unfold parsed_input, process_calculator. intros Hp.
  unfold bind at 1. unfold try_except.
  destruct (split_ws (strip (text m))) as [|tk [|s [|b [|x r]]]]; try reflexivity.
  unfold bind at 1. unfold eval at 1.
  destruct (int_of_str s) as [shares|]; cbn [or_value_error]; [|reflexivity].
  unfold bind at 1. unfold eval at 1.
  destruct (float_of_str b) as [bp|]; cbn [or_value_error]; [discriminate Hp|reflexivity].
Qed.

(** [process_calculator] on a text that parses: the three ways it ends. *)
Lemma process_calculator_parsed (m : message) (w : world)
  (tk : pystr) (shares : Z) (bp : float) :
  parsed_input (text m) = Some (tk, shares, bp) ->
  process_calculator m w
  = let w1 := after_fetch (upper tk) w in
    match fetched (provider w (requests w) GLOBAL_QUOTE (upper tk)) with
    | None =>
        (Ok tt, sent (Answer (chat_id m) calculator_not_found_text []) w1)
    | Some q =>
        match calculate shares bp (price q) with
        | Ok c =>
            (Ok tt,
             cleared m
               (sent (Answer (chat_id m) (result_text tk shares bp (price q) c) [])
                  w1))
        | Raise _ =>
            (Ok tt, cleared m (sent (Answer (chat_id m) format_error_text []) w1))
        end
    end.
Proof.
  unfold parsed_input, process_calculator. intros Hp.
  destruct (split_ws (strip (text m))) as [|tk' [|s [|b [|x r]]]]; try discriminate Hp.
  destruct (int_of_str s) as [shares'|]; [|discriminate Hp].
  destruct (float_of_str b) as [bp'|]; [|discriminate Hp].
  injection Hp as -> -> ->.
  unfold bind at 1. unfold try_except.
  unfold bind at 1. unfold eval at 1. cbn [or_value_error].
  unfold bind at 1. unfold eval at 1.
  unfold bind at 1. rewrite get_stock_data_run.
  destruct (fetched _) as [q|]; cbn zeta.
  - unfold bind at 1. unfold eval at 1.
    destruct (calculate shares bp (price q)) as [c|e]; reflexivity.
  - reflexivity.
Qed.

End Controller.

(** ** The calculator *)

Section Calculator.
Context `{Runtime}.

Lemma calculate_defined (shares : Z) (bp cp sh : float) :
  PyFloat.of_int shares = Ok sh ->
  is_zero (sh * bp)%float = false ->
  calculate shares bp cp
  = Ok {| total_invested := (sh * bp)%float;
          current_value := (sh * cp)%float;
          profit_loss := (sh * cp - sh * bp)%float;
          profit_percent := ((sh * cp - sh * bp) / (sh * bp) * 100)%float |}.
Proof.
  intros Hs Hz. unfold calculate, int_mul_float, float_mul_int, PyFloat.truediv.
  rewrite Hs. cbn [res_bind]. rewrite Hz. reflexivity.
Qed.

Lemma calculate_zero_invested (shares : Z) (bp cp inv : float) :
  int_mul_float shares bp = Ok inv ->
  is_zero inv = true ->
  calculate shares bp cp = Raise ZeroDivisionError.
Proof.
  unfold calculate, int_mul_float, PyFloat.truediv. intros Hi Hz.
  destruct (PyFloat.of_int shares) as [sh|e]; cbn [res_bind] in *; [|discriminate Hi].
  injection Hi as <-. rewrite Hz. reflexivity.
Qed.

(** C1, the path on which the code departs from it: a calculator input
    that parses, met by a fetch that returns absent, is answered with the
    not-found text and the handler returns from inside its [try], before
    [state.clear()]; the user is still in [calculator_input]. *)
Theorem process_calculator_absent_keeps_state (m : message) (w : world)
  (tk : pystr) (shares : Z) (bp : float) :
  state_of w m = Some calculator_input ->
  parsed_input (text m) = Some (tk, shares, bp) ->
  fetched (provider w (requests w) GLOBAL_QUOTE (upper tk)) = None ->
  exists w',
    process_calculator m w = (Ok tt, w')
    /\ outbox w' = outbox w ++ [Answer (chat_id m) calculator_not_found_text []]
    /\ state_of w' m = Some calculator_input.
Proof.
  intros Hst Hp Hf. rewrite (process_calculator_parsed m w tk shares bp Hp).
  cbn zeta. rewrite Hf. eexists. split; [reflexivity|]. split.
  - reflexivity.
  - rewrite state_of_sent, state_of_after_fetch. exact Hst.
Qed.

(** On every other path [process_calculator] clears the state. *)
Lemma process_calculator_clears (m : message) (w : world) :
  (forall tk shares bp,
      parsed_input (text m) = Some (tk, shares, bp) ->
      fetched (provider w (requests w) GLOBAL_QUOTE (upper tk)) <> None) ->
  exists w', process_calculator m w = (Ok tt, w') /\ state_of w' m = None.
Proof.
  intros Hfetch. destruct (parsed_input (text m)) as [[[tk shares] bp]|] eqn:Hp.
  - rewrite (process_calculator_parsed m w tk shares bp Hp). cbn zeta.
    specialize (Hfetch tk shares bp eq_refl).
    destruct (fetched _) as [q|]; [|congruence].
    destruct (calculate shares bp (price q)); eexists; split;
      reflexivity || apply state_of_cleared.
  - rewrite (process_calculator_rejected m w Hp). eexists. split; [reflexivity|].
    apply state_of_cleared.
Qed.

(** C2, amended: a calculator input that parses and whose invested amount
    is zero never makes the handler raise; the reply is the format-error
    text when the quote fetch succeeds and the not-found text when it
    returns absent. *)
Theorem zero_invested_reply (m : message) (w : world)
  (tk : pystr) (shares : Z) (bp inv : float) :
  state_of w m = Some calculator_input ->
  parsed_input (text m) = Some (tk, shares, bp) ->
  int_mul_float shares bp = Ok inv ->
  is_zero inv = true ->
  exists w',
    process_calculator m w = (Ok tt, w')
    /\ outbox w'
       = outbox w
         ++ [Answer (chat_id m)
               (match fetched (provider w (requests w) GLOBAL_QUOTE (upper tk)) with
                | Some _ => format_error_text
                | None => calculator_not_found_text
                end) []].
Proof.
  intros _ Hp Hi Hz. rewrite (process_calculator_parsed m w tk shares bp Hp).
  cbn zeta. destruct (fetched _) as [q|].
  - rewrite (calculate_zero_invested shares bp (price q) inv Hi Hz).
    eexists. split; reflexivity.
  - eexists. split; reflexivity.
Qed.

Lemma profit_line_end :
  lit "%)
                " = lit "%)" ++ nl ++ lit "                ".
Proof. vm_compute. reflexivity. Qed.

(** The last line of the result text: indicator, profit, percent. *)
Lemma result_text_last_line (tk : pystr) (shares : Z) (bp cp : float)
  (c : calculation) :
  result_text tk shares bp cp c
  = result_head tk shares bp cp c
    ++ (if (0 <? profit_loss c)%float then up_emoji else down_emoji)
    ++ lit " <b>Прибуток/Збиток:</b> $" ++ PyFloat.fixed2 false (profit_loss c)
    ++ lit " (" ++ PyFloat.fixed2 true (profit_percent c) ++ lit "%)"
    ++ nl ++ lit "                ".
Proof.
  unfold result_text, PyFloat.gt0. cbv zeta. rewrite profit_line_end. reflexivity.
Qed.

(** C8: for a parsed input and a fetched quote, when the share count
    converts to a float and the invested amount is not zero, the four
    quantities are the products, the difference and the ratio times 100 of
    the claim, the reply is the result text built from them, and its last
    line opens with the up indicator exactly when the profit is above
    zero.  On [10] shares bought at [150.50] and quoted at [160.00] the
    figures are 1505.00, 1600.00, 95.00 and +6.31 percent. *)
Theorem calculator_quantities :
  (forall (m : message) (w : world) (tk : pystr) (shares : Z) (bp sh : float)
          (q : quote),
      parsed_input (text m) = Some (tk, shares, bp) ->
      fetched (provider w (requests w) GLOBAL_QUOTE (upper tk)) = Some q ->
      PyFloat.of_int shares = Ok sh ->
      is_zero (sh * bp)%float = false ->
      let invested := (sh * bp)%float in
      let value := (sh * price q)%float in
      let pl := (value - invested)%float in
      let percent := (pl / invested * 100)%float in
      exists c w',
        calculate shares bp (price q) = Ok c
        /\ total_invested c = invested
        /\ current_value c = value
        /\ profit_loss c = pl
        /\ profit_percent c = percent
        /\ process_calculator m w = (Ok tt, w')
        /\ outbox w'
           = outbox w
             ++ [Answer (chat_id m) (result_text tk shares bp (price q) c) []]
        /\ result_text tk shares bp (price q) c
           = result_head tk shares bp (price q) c
             ++ (if (0 <? pl)%float then up_emoji else down_emoji)
             ++ lit " <b>Прибуток/Збиток:</b> $" ++ PyFloat.fixed2 false pl
             ++ lit " (" ++ PyFloat.fixed2 true percent ++ lit "%)"
             ++ nl ++ lit "                ")
  /\ (exists c,
         calculate 10 150.5%float 160%float = Ok c
         /\ total_invested c = 1505%float
         /\ current_value c = 1600%float
         /\ profit_loss c = 95%float
         /\ PyFloat.fixed2 false (total_invested c) = lit "1505.00"
         /\ PyFloat.fixed2 false (current_value c) = lit "1600.00"
         /\ PyFloat.fixed2 false (profit_loss c) = lit "95.00"
         /\ PyFloat.fixed2 true (profit_percent c) = lit "+6.31"
         /\ PyFloat.gt0 (profit_loss c) = true).
Proof.
  split.
  - intros m w tk shares bp sh q Hp Hf Hs Hz invested value pl percent.
    rewrite (process_calculator_parsed m w tk shares bp Hp). cbv zeta.
    rewrite Hf, (calculate_defined shares bp (price q) sh Hs Hz).
    eexists. eexists. split; [reflexivity|].
    rewrite result_text_last_line.
    cbn [total_invested current_value profit_loss profit_percent].
    repeat (split; [reflexivity|]). reflexivity.
  - eexists. split; [vm_compute; reflexivity|].
    cbv beta iota delta [total_invested current_value profit_loss profit_percent].
    repeat split; vm_compute; reflexivity.
Qed.

End Calculator.

(** ** Runs on concrete worlds *)

(** User 7 was asked for a calculator input. *)
Lemma awaiting_calculator_state :
  state_of (fresh_world empty_db {[ (7, 7) := calculator_input ]} offline)
           (private_message 7 "AAPL 10 150.50")
  = Some calculator_input.
Proof. unfold state_of, fresh_world, private_message. cbn. apply lookup_singleton_eq. Qed.

Lemma process_calculator_absent_keeps_state_witness :
  let m := private_message 7 "AAPL 10 150.50" in
  let w := fresh_world empty_db {[ (7, 7) := calculator_input ]} offline in
  exists w',
    process_calculator m w = (Ok tt, w')
    /\ outbox w' = outbox w ++ [Answer (chat_id m) calculator_not_found_text []]
    /\ state_of w' m = Some calculator_input.
Proof.
  intros m w.
  apply (@process_calculator_absent_keeps_state plain_runtime m w
           (lit "AAPL") 10 150.5%float).
  - apply lookup_singleton_eq.
  - vm_compute. reflexivity.
  - vm_compute. reflexivity.
Defined.

Lemma not_found_is_not_format_error :
  calculator_not_found_text <> format_error_text.
Proof. vm_compute. discriminate. Qed.

(** C2 as stated fails: with the network down, the input "AAPL 10 0" (zero
    invested amount) is answered with the not-found text, not with the
    format-error text. *)
Lemma zero_invested_format_error_refuted :
  ~ (forall (R : Runtime) (m : message) (w : world)
            (tk : pystr) (shares : Z) (bp inv : float),
        state_of w m = Some calculator_input ->
        parsed_input (text m) = Some (tk, shares, bp) ->
        int_mul_float shares bp = Ok inv ->
        is_zero inv = true ->
        exists w',
          process_calculator m w = (Ok tt, w')
          /\ outbox w' = outbox w ++ [Answer (chat_id m) format_error_text []]).
Proof.
  intros Hclaim.
  destruct (Hclaim plain_runtime (private_message 7 "AAPL 10 0")
              (fresh_world empty_db {[ (7, 7) := calculator_input ]} offline)
              (lit "AAPL") 10 0%float 0%float) as (w' & Hrun & Hout).
  - apply lookup_singleton_eq.
  - vm_compute. reflexivity.
  - vm_compute. reflexivity.
  - vm_compute. reflexivity.
  - rewrite (@process_calculator_parsed plain_runtime _ _ (lit "AAPL") 10 0%float)
      in Hrun by (vm_compute; reflexivity).
    cbn zeta in Hrun.
    assert (fetched (provider (fresh_world empty_db {[ (7, 7) := calculator_input ]} offline)
                       (requests (fresh_world empty_db {[ (7, 7) := calculator_input ]} offline))
                       GLOBAL_QUOTE (upper (lit "AAPL"))) = None) as Hf
      by (vm_compute; reflexivity).
    rewrite Hf in Hrun. injection Hrun as <-.
    rewrite outbox_sent, outbox_after_fetch in Hout.
    apply app_inv_head in Hout.
    pose proof (f_equal (fun l => match l with
                                  | Answer _ body _ :: _ => body
                                  | _ => []
                                  end) Hout) as Hbody.
    exact (not_found_is_not_format_error Hbody).
Qed.

Lemma zero_invested_reply_witness :
  let m := private_message 7 "AAPL 10 0" in
  let w := fresh_world empty_db {[ (7, 7) := calculator_input ]}
             (quoting "AAPL" "160.00" "1.25" "0.79%") in
  exists w',
    process_calculator m w = (Ok tt, w')
    /\ outbox w' = [Answer 7 format_error_text []].
Proof.
  intros m w.
  destruct (@zero_invested_reply plain_runtime m w (lit "AAPL") 10 0%float 0%float)
    as (w' & Hrun & Hout).
  - apply lookup_singleton_eq.
  - vm_compute. reflexivity.
  - vm_compute. reflexivity.
  - vm_compute. reflexivity.
  - exists w'. split; [exact Hrun|]. rewrite Hout. vm_compute. reflexivity.
Defined.


Lemma watchlist_render_witness :
  let d := add_all [(1, 7, lit "aapl"); (2, 7, lit "zzzzinvalid")] empty_db in
  let w := fresh_world d ∅ (first_only "AAPL" "189.50" "1.25" "0.66%") in
  exists w',
    watchlist_command (private_message 7 "/watchlist") w = (Ok tt, w')
    /\ outbox w'
       = [Answer 7
            (lit "📋 <b>Ваш список відстеження:</b>" ++ nl ++ nl
             ++ lit "📈 <b>AAPL</b>: $189.50 (0.66%)" ++ nl
             ++ lit "• <b>ZZZZINVALID</b>: Дані недоступні" ++ nl) []].
Proof.
  intros d w.
  destruct (@watchlist_render plain_runtime (private_message 7 "/watchlist") w)
    as (w' & Hrun & Hout & _).
  exists w'. split; [exact Hrun|]. rewrite Hout. vm_compute. reflexivity.
Defined.

Lemma overview_description_truncated_witness :
  let desc := repeat 120%N 600 in
  let d := [(lit "Symbol", JStr (lit "IBM")); (lit "Description", JStr desc)] in
  let w := fresh_world empty_db ∅ (fun _ _ _ => Ok (JDict d)) in
  let m := private_message 7 "/overview IBM" in
  exists head w',
    overview_head (JDict d) (lit "IBM") = Ok head
    /\ send_company_overview m (lit "IBM") w = (Ok tt, w')
    /\ outbox w'
       = outbox w
         ++ [Answer (chat_id m) (lit "🔍 Завантажую дані про компанію...") [];
             Answer (chat_id m)
               (head ++ firstn 500 desc ++ lit "..." ++ nl ++ lit "        ") []]
    /\ length (firstn 500 desc) = 500%nat.
Proof.
  intros desc d w m.
  apply (@overview_description_truncated plain_runtime m (lit "IBM") w d desc).
  - reflexivity.
  - vm_compute. discriminate.
  - vm_compute. reflexivity.
  - vm_compute. lia.
Defined.

Lemma calculator_quantities_witness :
  let m := private_message 7 "AAPL 10 150.50" in
  let w := fresh_world empty_db {[ (7, 7) := calculator_input ]}
             (quoting "AAPL" "160.00" "1.25" "0.79%") in
  exists w',
    process_calculator m w = (Ok tt, w')
    /\ outbox w'
       = [Answer 7
            (nl ++ lit "🧮 <b>Розрахунок інвестицій</b>" ++ nl ++ nl
             ++ lit "📊 <b>Акція:</b> AAPL" ++ nl
             ++ lit "💰 <b>Поточна ціна:</b> $160.00" ++ nl
             ++ lit "🔢 <b>Кількість акцій:</b> 10" ++ nl
             ++ lit "💵 <b>Ціна покупки:</b> $150.50" ++ nl ++ nl
             ++ lit "💸 <b>Інвестовано:</b> $1505.00" ++ nl
             ++ lit "💰 <b>Поточна вартість:</b> $1600.00" ++ nl ++ nl
             ++ lit "📈 <b>Прибуток/Збиток:</b> $95.00 (+6.31%)" ++ nl
             ++ lit "                ") []].
Proof.
  intros m w.
  assert (exists q, fetched (provider w (requests w) GLOBAL_QUOTE
                               (@upper plain_runtime (lit "AAPL"))) = Some q
                    /\ price q = 160%float) as (q & Hq & Hprice).
  { eexists. split; vm_compute; reflexivity. }
  destruct (proj1 (@calculator_quantities plain_runtime) m w (lit "AAPL") 10
              150.5%float 10%float q)
    as (c & w' & Hc & _ & _ & _ & _ & Hrun & Hout & _).
  - vm_compute. reflexivity.
  - exact Hq.
  - vm_compute. reflexivity.
  - vm_compute. reflexivity.
  - exists w'. split; [exact Hrun|]. rewrite Hout.
    rewrite Hprice in *.
    assert (c = {| total_invested := 1505; current_value := 1600;
                   profit_loss := 95;
                   profit_percent := (95 / 1505 * 100)%float |}) as ->.
    { vm_compute in Hc. injection Hc as <-. vm_compute. reflexivity. }
    vm_compute. reflexivity.
Defined.

(** * Further properties of the store, the quote client and the handlers *)

(** ** The store *)

Lemma filter_keys_subset (p : user_row -> bool) (t : list user_row) (k : Z) :
  In k (map user_id (List.filter p t)) -> In k (map user_id t).
Proof.
  induction t as [|r t IH]; simpl; [tauto|].
  destruct (p r); simpl; tauto.
Qed.

Lemma filter_keys_nodup (p : user_row -> bool) (t : list user_row) :
  List.NoDup (map user_id t) -> List.NoDup (map user_id (List.filter p t)).
Proof.
  induction t as [|r t IH]; simpl; intros Hn; [constructor|].
  apply List.NoDup_cons_iff in Hn. destruct Hn as [Hnot Hn].
  destruct (p r); simpl; [|auto].
  apply List.NoDup_cons_iff. split; [|auto].
  intros Hin. apply Hnot. eapply filter_keys_subset. exact Hin.
Qed.

Lemma removed_key_absent (uid : Z) (t : list user_row) :
  ~ In uid (map user_id (List.filter (fun x => negb (user_id x =? uid)) t)).
Proof.
  induction t as [|r t IH]; simpl; [tauto|].
  destruct (Z.eqb_spec (user_id r) uid) as [E|E]; simpl; [exact IH|].
  intros [Heq|Hin]; [congruence|tauto].
Qed.

Lemma has_user_false_absent (uid : Z) (t : list user_row) :
  has_user uid t = false -> ~ In uid (map user_id t).
Proof.
  unfold has_user. induction t as [|r t IH]; simpl; [tauto|].
  destruct (Z.eqb_spec (user_id r) uid) as [E|E]; simpl; [discriminate|].
  intros Hh [Heq|Hin]; [congruence|]. exact (IH Hh Hin).
Qed.

Lemma nodup_snoc (l : list Z) (x : Z) :
  List.NoDup l -> ~ In x l -> List.NoDup (l ++ [x]).
Proof.
  induction l as [|a l IH]; simpl; intros Hn Hx.
  - constructor; [simpl; tauto|constructor].
  - apply List.NoDup_cons_iff in Hn. destruct Hn as [Ha Hn].
    apply List.NoDup_cons_iff. split.
    + intros Hin. apply in_app_or in Hin. destruct Hin as [Hin|[Heq|[]]]; [tauto|].
      apply Hx. now left.
    + apply IH; [exact Hn|]. intros Hin. apply Hx. now right.
Qed.

(** X1: [save_user] keeps the primary key of [users] unique: from a table
    with at most one row per [user_id] it returns a table with at most one
    row per [user_id]. *)
Theorem save_user_keeps_keys_unique (d : database) (now uid : Z) (uname fname : pystr) :
  unique_users d ->
  exists d', save_user now uid uname fname d = Ok d' /\ unique_users d'.
Proof.
  unfold unique_users, save_user, insert_user. intros Hn. cbn [user_id].
  destruct (has_user uid (users d)) eqn:E; cbn [res_bind]; eexists;
    (split; [reflexivity|]); cbn [users]; rewrite map_app; cbn [map user_id];
    apply nodup_snoc.
  - apply filter_keys_nodup. exact Hn.
  - apply removed_key_absent.
  - exact Hn.
  - apply has_user_false_absent. exact E.
Qed.

Lemma save_user_keeps_keys_unique_witness :
  let d := {| users := [{| user_id := 1; username := lit "a"; first_name := lit "A";
                           created_at := 10 |};
                        {| user_id := 2; username := lit "b"; first_name := lit "B";
                           created_at := 20 |}];
              watchlist := []; watchlist_seq := 0 |} in
  exists d', save_user 30 1 (lit "a2") (lit "A2") d = Ok d' /\ unique_users d'.
Proof.
  intros d. apply (save_user_keeps_keys_unique d 30 1 (lit "a2") (lit "A2")).
  unfold unique_users. cbn. repeat constructor; cbn; intuition discriminate.
Defined.

(** X2: [save_user] for one id touches nothing else: the rows of every
    other id, the watch-list table and its counter are as before, so a
    user who registers again keeps the watch-list. *)
Theorem save_user_frame (d : database) (now uid other : Z) (uname fname : pystr) :
  other <> uid ->
  exists d',
    save_user now uid uname fname d = Ok d'
    /\ rows_of other (users d') = rows_of other (users d)
    /\ watchlist d' = watchlist d
    /\ watchlist_seq d' = watchlist_seq d.
Proof.
  intros Hne. unfold save_user, insert_user. cbn [user_id].
  destruct (has_user uid (users d)); cbn [res_bind]; eexists;
    (split; [reflexivity|]); cbn [users watchlist watchlist_seq];
    (split; [|split; reflexivity]); rewrite rows_of_app.
  - rewrite (rows_of_other uid other _ Hne). unfold rows_of at 2. cbn.
    destruct (Z.eqb_spec uid other); [congruence|]. apply app_nil_r.
  - unfold rows_of at 2. cbn.
    destruct (Z.eqb_spec uid other); [congruence|]. apply app_nil_r.
Qed.

Lemma save_user_frame_witness :
  let d := {| users := [{| user_id := 1; username := lit "a"; first_name := lit "A";
                           created_at := 10 |};
                        {| user_id := 2; username := lit "b"; first_name := lit "B";
                           created_at := 20 |}];
              watchlist := []; watchlist_seq := 0 |} in
  exists d',
    save_user 30 1 (lit "a2") (lit "A2") d = Ok d'
    /\ rows_of 2 (users d') = rows_of 2 (users d)
    /\ watchlist d' = watchlist d
    /\ watchlist_seq d' = watchlist_seq d.
Proof.
  intros d. apply (save_user_frame d 30 1 2 (lit "a2") (lit "A2")). lia.
Defined.




Section StoreExtras.
Context `{Runtime}.


(** X4: the watch-list is never deduplicated and never shared: adding the
    same ticker twice for a user leaves it twice at the end of that user's
    list; the list of every other user and the [users] table are as
    before. *)
Theorem add_to_watchlist_no_dedup (d : database) (t1 t2 uid : Z) (tk : pystr) :
  get_watchlist uid (add_to_watchlist t2 uid tk (add_to_watchlist t1 uid tk d))
  = get_watchlist uid d ++ [upper tk; upper tk]
  /\ (forall other, other <> uid ->
        get_watchlist other (add_to_watchlist t1 uid tk d) = get_watchlist other d)
  /\ users (add_to_watchlist t1 uid tk d) = users d.
Proof.
  split; [|split].
  - rewrite !get_watchlist_add, Z.eqb_refl, <- app_assoc. reflexivity.
  - intros other Hne. rewrite get_watchlist_add.
    destruct (Z.eqb_spec uid other); [congruence|]. apply app_nil_r.
  - reflexivity.
Qed.

End StoreExtras.


(** ** The quote client *)

Section QuoteClientExtras.
Context `{Runtime}.


(** X6: a field that is present but that [float()] rejects is not
    replaced by a default: when the "05. price" of the quote is a string
    [float()] refuses, the fetch is absent and a [ValueError] is logged. *)
Theorem get_stock_data_bad_price (tk : pystr) (w : world)
  (d gq : list (pystr * json)) (s : pystr) :
  provider w (requests w) GLOBAL_QUOTE tk = Ok (JDict d) ->
  get_item d (lit "Global Quote") = Some (JDict gq) ->
  get_item gq (lit "05. price") = Some (JStr s) ->
  float_of_str s = None ->
  exists w',
    get_stock_data tk w = (Ok None, w')
    /\ errors w' = errors w ++ [(tk, ValueError)].
Proof.
  intros Hp Hg Hprice Hs. rewrite get_stock_data_run.
  unfold after_fetch, fetched, fetch_error. rewrite Hp.
  assert (quote_of_response (JDict d) = Raise ValueError) as ->.
  { unfold quote_of_response, contains, subscript, dict_get.
    rewrite Hg. cbn [res_bind]. rewrite Hprice. cbn [res_bind to_float].
    rewrite Hs. reflexivity. }
  eexists. split; reflexivity.
Qed.

(** X7: [get_company_overview] never raises and issues one request; what
    it returns is the decoded body itself, unaltered, and it returns it
    exactly when ["Symbol" in body] holds. *)
Theorem get_company_overview_passes_body (tk : pystr) (w : world) :
  exists r w',
    get_company_overview tk w = (Ok r, w')
    /\ requests w' = S (requests w)
    /\ outbox w' = outbox w /\ db w' = db w /\ fsm w' = fsm w
    /\ forall body,
         r = Some body
         <-> provider w (requests w) OVERVIEW tk = Ok body
             /\ contains body (lit "Symbol") = Ok true.
Proof.
  unfold get_company_overview, try_except, bind, http_get_json, eval, log_error, ret.
  cbn [fst snd].
  destruct (provider w (requests w) OVERVIEW tk) as [data|e] eqn:Ep.
  - unfold overview_of_response.
    destruct (contains data (lit "Symbol")) as [[|]|e] eqn:Ec; cbn [res_bind];
      eexists; eexists; (split; [reflexivity|]);
      cbn [requests outbox db fsm]; repeat (split; [reflexivity|]);
      intros body; split.
    + intros [= <-]. now split.
    + intros [[= <-] _]. reflexivity.
    + discriminate.
    + intros [[= <-] Hc]. congruence.
    + discriminate.
    + intros [[= <-] Hc]. congruence.
  - eexists. eexists. split; [reflexivity|].
    cbn [requests outbox db fsm]. repeat (split; [reflexivity|]).
    intros body. split; [discriminate|]. intros [Hb _]. discriminate.
Qed.

End QuoteClientExtras.

Lemma get_stock_data_bad_price_witness :
  let w := fresh_world empty_db ∅ (quoting "AAPL" "N/A" "1.25" "0.79%") in
  exists w',
    get_stock_data (lit "AAPL") w = (Ok None, w')
    /\ errors w' = errors w ++ [(lit "AAPL", ValueError)].
Proof.
  intros w.
  apply (@get_stock_data_bad_price plain_runtime (lit "AAPL") w
           [(lit "Global Quote",
             JDict [(lit "01. symbol", JStr (lit "AAPL"));
                    (lit "05. price", JStr (lit "N/A"));
                    (lit "09. change", JStr (lit "1.25"));
                    (lit "10. change percent", JStr (lit "0.79%"))])]
           [(lit "01. symbol", JStr (lit "AAPL"));
            (lit "05. price", JStr (lit "N/A"));
            (lit "09. change", JStr (lit "1.25"));
            (lit "10. change percent", JStr (lit "0.79%"))]
           (lit "N/A")).
  - reflexivity.
  - vm_compute. reflexivity.
  - vm_compute. reflexivity.
  - vm_compute. reflexivity.
Defined.

(** ** Replies *)

Section Replies.
Context `{Runtime}.

(** The reply [send_stock_analysis] gives after its acknowledgement. *)
Lemma send_stock_analysis_run (m : message) (tk : pystr) (w : world) :
  send_stock_analysis m tk w
  = (Ok tt,
     sent (match fetched (provider w (requests w) GLOBAL_QUOTE tk) with
           | Some q => Answer (chat_id m) (analysis_text q (clock w)) (analysis_buttons tk)
           | None => Answer (chat_id m) (lit "❌ Не вдалося знайти дані для " ++ tk) []
           end)
       (after_fetch tk (sent (Answer (chat_id m) (lit "🔍 Шукаю дані...") []) w))).
Proof.
  unfold send_stock_analysis, answer.
  unfold bind at 1. unfold send at 1.
  unfold bind at 1. rewrite get_stock_data_run.
  cbn [provider requests].
  destruct (fetched (provider w (requests w) GLOBAL_QUOTE tk)) as [q|]; reflexivity.
Qed.

(** X8: [send_stock_analysis] never raises and leaves the conversation
    state and the database alone; it issues one request and sends exactly
    two messages, the acknowledgement and then either the analysis, with
    the "add to watchlist" and "overview" buttons of this ticker, or the
    not-found text naming the ticker, with no button. *)
Theorem send_stock_analysis_replies (m : message) (tk : pystr) (w : world) :
  exists w',
    send_stock_analysis m tk w = (Ok tt, w')
    /\ outbox w'
       = outbox w
         ++ [Answer (chat_id m) (lit "🔍 Шукаю дані...") [];
             match fetched (provider w (requests w) GLOBAL_QUOTE tk) with
             | Some q =>
                 Answer (chat_id m) (analysis_text q (clock w))
                   [ {| label := lit "➕ Додати до списку";
                        callback_data := lit "add_watchlist_" ++ tk |};
                     {| label := lit "🏢 Огляд компанії";
                        callback_data := lit "overview_" ++ tk |} ]
             | None =>
                 Answer (chat_id m) (lit "❌ Не вдалося знайти дані для " ++ tk) []
             end]
    /\ requests w' = S (requests w)
    /\ fsm w' = fsm w /\ db w' = db w.
Proof.
  rewrite send_stock_analysis_run. eexists. split; [reflexivity|].
  split; [|repeat split].
  rewrite outbox_sent, outbox_after_fetch, outbox_sent, <- app_assoc.
  destruct (fetched _); reflexivity.
Qed.

Lemma fetched_empty_quote (d : list (pystr * json)) :
  get_item d (lit "Global Quote") = Some (JDict []) ->
  fetched (Ok (JDict d)) = Some zero_quote.
Proof.
  intros Hg. unfold fetched, quote_of_response, contains, subscript, dict_get.
  rewrite Hg. reflexivity.
Qed.

(** X9: a body whose "Global Quote" object is empty counts as a found
    quote: every field takes its default, and the user gets the analysis
    of an all-zero quote with its two buttons, not the not-found text. *)
Theorem empty_quote_is_analysed (m : message) (tk : pystr) (w : world)
  (d : list (pystr * json)) :
  provider w (requests w) GLOBAL_QUOTE tk = Ok (JDict d) ->
  get_item d (lit "Global Quote") = Some (JDict []) ->
  exists w',
    send_stock_analysis m tk w = (Ok tt, w')
    /\ outbox w'
       = outbox w
         ++ [Answer (chat_id m) (lit "🔍 Шукаю дані...") [];
             Answer (chat_id m) (analysis_text zero_quote (clock w))
               (analysis_buttons tk)]
    /\ price zero_quote = 0%float /\ volume zero_quote = 0
    /\ symbol zero_quote = JStr [].
Proof.
  intros Hp Hg. rewrite send_stock_analysis_run. eexists. split; [reflexivity|].
  split; [|repeat split].
  rewrite outbox_sent, outbox_after_fetch, outbox_sent, <- app_assoc.
  rewrite Hp, (fetched_empty_quote d Hg). reflexivity.
Qed.

End Replies.

Lemma empty_quote_is_analysed_witness :
  let w := fresh_world empty_db ∅
             (fun _ _ _ => Ok (JDict [(lit "Global Quote", JDict [])])) in
  let m := private_message 7 "/stock ZZZZ" in
  exists w',
    send_stock_analysis m (lit "ZZZZ") w = (Ok tt, w')
    /\ outbox w'
       = outbox w
         ++ [Answer (chat_id m) (lit "🔍 Шукаю дані...") [];
             Answer (chat_id m) (analysis_text zero_quote (clock w))
               (analysis_buttons (lit "ZZZZ"))]
    /\ price zero_quote = 0%float /\ volume zero_quote = 0
    /\ symbol zero_quote = JStr [].
Proof.
  intros w m.
  apply (@empty_quote_is_analysed plain_runtime m (lit "ZZZZ") w
           [(lit "Global Quote", JDict [])]).
  - reflexivity.
  - vm_compute. reflexivity.
Defined.

(** ** The overview flow *)

Section OverviewExtras.
Context `{Runtime}.

Lemma is_substring_nonempty (p s : pystr) :
  p <> [] -> is_substring p s = true -> s <> [].
Proof.
  intros Hp Hs ->. destruct p as [|a p]; [congruence|]. discriminate Hs.
Qed.

Lemma get_company_overview_some (tk : pystr) (w : world) (body : json) :
  provider w (requests w) OVERVIEW tk = Ok body ->
  contains body (lit "Symbol") = Ok true ->
  get_company_overview tk w
  = (Ok (Some body),
     {| db := db w; fsm := fsm w; outbox := outbox w;
        requests := S (requests w); provider := provider w; clock := clock w;
        errors := errors w |}).
Proof.
  intros Hp Hc.
  unfold get_company_overview, try_except, bind, http_get_json, eval.
  rewrite Hp. unfold overview_of_response. rewrite Hc. reflexivity.
Qed.

(** X10: the overview flow is not protected against a body that is no
    JSON object: when the provider answers with a JSON string that
    has "Symbol" in it, the membership test succeeds, the string is taken
    for the overview, and [send_company_overview] raises [AttributeError]
    after its acknowledgement; no second message is sent. *)
Theorem overview_of_string_body_raises (m : message) (tk : pystr) (w : world)
  (s : pystr) :
  provider w (requests w) OVERVIEW tk = Ok (JStr s) ->
  is_substring (lit "Symbol") s = true ->
  exists w',
    send_company_overview m tk w = (Raise AttributeError, w')
    /\ outbox w'
       = outbox w ++ [Answer (chat_id m) (lit "🔍 Завантажую дані про компанію...") []].
Proof.
  intros Hp Hs.
  unfold send_company_overview, answer.
  unfold bind at 1. unfold send at 1.
  unfold bind at 1.
  rewrite (get_company_overview_some tk _ (JStr s)); cbn [provider requests];
    [|exact Hp|unfold contains; now rewrite Hs].
  assert (truthy (JStr s) = true) as ->.
  { destruct s as [|c s]; [|reflexivity].
    exfalso. apply (is_substring_nonempty (lit "Symbol") []); [|exact Hs|reflexivity].
    vm_compute. discriminate. }
  unfold bind, eval, overview_text, overview_head, dict_get. cbn [res_bind].
  eexists. split; reflexivity.
Qed.

(** X11: the continuation marker does not depend on a cut: for a
    description of at most 500 code points the overview shows all of it
    followed by "...", and when the body has no "Description" it shows the
    default text followed by "...". *)
Theorem overview_marker_always (m : message) (tk : pystr) (w : world)
  (d : list (pystr * json)) (shown : pystr) :
  provider w (requests w) OVERVIEW tk = Ok (JDict d) ->
  get_item d (lit "Symbol") <> None ->
  (get_item d (lit "Description") = Some (JStr shown) /\ (length shown <= 500)%nat
   \/ get_item d (lit "Description") = None /\ shown = lit "Опис недоступний") ->
  exists head w',
    overview_head (JDict d) tk = Ok head
    /\ send_company_overview m tk w = (Ok tt, w')
    /\ outbox w'
       = outbox w
         ++ [Answer (chat_id m) (lit "🔍 Завантажую дані про компанію...") [];
             Answer (chat_id m)
               (head ++ shown ++ lit "..." ++ nl ++ lit "        ") []].
Proof.
  intros Hp Hs Hd.
  destruct (overview_head_dict d tk) as (head & Hhead). exists head.
  unfold send_company_overview, answer.
  unfold bind at 1. unfold send at 1.
  unfold bind at 1.
  rewrite (get_company_overview_some tk _ (JDict d)); cbn [provider requests];
    [|exact Hp|].
  2:{ unfold contains. destruct (get_item d (lit "Symbol")); [reflexivity|congruence]. }
  assert (truthy (JDict d) = true) as ->.
  { destruct d; [|reflexivity]. exfalso. apply Hs. reflexivity. }
  assert (overview_text (JDict d) tk = Ok (head ++ shown ++ overview_tail)) as Ht.
  { unfold overview_text. rewrite Hhead. unfold dict_get. cbn [res_bind].
    destruct Hd as [[Hd Hlen]|[Hd ->]]; rewrite Hd; cbn [slice_to res_bind to_str].
    - rewrite firstn_all2 by exact Hlen. reflexivity.
    - rewrite firstn_all2; [reflexivity|]. vm_compute. lia. }
  unfold bind, eval. rewrite Ht. unfold send.
  eexists. split; [exact Hhead|]. split; [reflexivity|].
  cbn [outbox]. rewrite <- app_assoc, overview_tail_text. reflexivity.
Qed.

End OverviewExtras.

Lemma overview_of_string_body_raises_witness :
  let w := fresh_world empty_db ∅ (fun _ _ _ => Ok (JStr (lit "Symbol not found"))) in
  let m := private_message 7 "/overview IBM" in
  exists w',
    send_company_overview m (lit "IBM") w = (Raise AttributeError, w')
    /\ outbox w'
       = outbox w ++ [Answer (chat_id m) (lit "🔍 Завантажую дані про компанію...") []].
Proof.
  intros w m.
  apply (@overview_of_string_body_raises plain_runtime m (lit "IBM") w
           (lit "Symbol not found")).
  - reflexivity.
  - vm_compute. reflexivity.
Defined.

Lemma overview_marker_always_witness :
  let d := [(lit "Symbol", JStr (lit "IBM")); (lit "Description", JStr (lit "Short."))] in
  let w := fresh_world empty_db ∅ (fun _ _ _ => Ok (JDict d)) in
  let m := private_message 7 "/overview IBM" in
  exists head w',
    overview_head (JDict d) (lit "IBM") = Ok head
    /\ send_company_overview m (lit "IBM") w = (Ok tt, w')
    /\ outbox w'
       = outbox w
         ++ [Answer (chat_id m) (lit "🔍 Завантажую дані про компанію...") [];
             Answer (chat_id m)
               (head ++ lit "Short." ++ lit "..." ++ nl ++ lit "        ") []].
Proof.
  intros d w m.
  apply (@overview_marker_always plain_runtime m (lit "IBM") w d (lit "Short.")).
  - reflexivity.
  - vm_compute. discriminate.
  - left. split; [vm_compute; reflexivity|vm_compute; lia].
Defined.

(** ** Commands and button presses *)

Lemma second_field_head (pre rest : pystr) :
  ~ In underscore pre ->
  second_field (pre ++ underscore :: rest) = Ok (before_first underscore rest).
Proof.
  intros Hpre. unfold second_field, split_on.
  assert (forall cur,
             split_on_go underscore (pre ++ underscore :: rest) cur
             = (cur ++ pre) :: split_on_go underscore rest []) as Hgo.
  { induction pre as [|c pre IH]; intros cur; cbn [app split_on_go].
    - rewrite N.eqb_refl, app_nil_r. reflexivity.
    - destruct (N.eqb_spec c underscore) as [->|Hne].
      + exfalso. apply Hpre. now left.
      + rewrite IH; [|intros Hin; apply Hpre; now right].
        rewrite <- app_assoc. reflexivity. }
  rewrite Hgo. unfold index. cbn [nth_error].
  pose proof (split_on_go_head underscore rest []) as Hh.
  destruct (split_on_go underscore rest []) as [|x r]; cbn in Hh; [discriminate|].
  injection Hh as ->. reflexivity.
Qed.

Lemma analyze_prefix : lit "analyze_" = lit "analyze" ++ [underscore].
Proof. vm_compute. reflexivity. Qed.

Lemma overview_prefix : lit "overview_" = lit "overview" ++ [underscore].
Proof. vm_compute. reflexivity. Qed.

(** X12: the payloads "analyze_<ticker>" and "overview_<ticker>" are read
    back by [split("_")[1]] as the ticker up to its first underscore: the
    ticker itself when it has none, a proper prefix otherwise. *)
Theorem second_field_round_trip (tk : pystr) :
  second_field (analyze_payload tk) = Ok (before_first underscore tk)
  /\ second_field (overview_payload tk) = Ok (before_first underscore tk)
  /\ (~ In underscore tk -> before_first underscore tk = tk)
  /\ (In underscore tk -> before_first underscore tk <> tk).
Proof.
  unfold analyze_payload, overview_payload.
  rewrite analyze_prefix, overview_prefix, <- !app_assoc. cbn [app].
  split; [|split; [|split]].
  - apply second_field_head. vm_compute. intuition discriminate.
  - apply second_field_head. vm_compute. intuition discriminate.
  - apply before_first_absent.
  - intros Hin Heq. apply before_first_shorter in Hin. rewrite Heq in Hin. lia.
Qed.

Section CommandExtras.
Context `{Runtime}.

(** X13: [stock_command] without a second token answers with the usage
    hint and does nothing else: no request, no change of state.  With one
    it is the analysis of that token upper-cased, whatever follows it, and
    the indexing never fails. *)
Theorem stock_command_cases (m : message) (w : world) :
  ((length (split_ws (text m)) < 2)%nat ->
     exists w',
       stock_command m w = (Ok tt, w')
       /\ outbox w'
          = outbox w ++ [Answer (chat_id m) (lit "Введіть тікер акції. Приклад: /stock AAPL") []]
       /\ requests w' = requests w /\ fsm w' = fsm w /\ db w' = db w)
  /\ (forall cmd arg rest,
         split_ws (text m) = cmd :: arg :: rest ->
         stock_command m w = send_stock_analysis m (upper arg) w).
Proof.
  unfold stock_command. split.
  - intros Hlen. apply Nat.ltb_lt in Hlen. rewrite Hlen.
    eexists. split; [reflexivity|]. repeat split.
  - intros cmd arg rest ->. reflexivity.
Qed.

(** X14: [overview_command] likewise: a usage hint and nothing else
    without a second token, the overview of that token upper-cased with
    one. *)
Theorem overview_command_cases (m : message) (w : world) :
  ((length (split_ws (text m)) < 2)%nat ->
     exists w',
       overview_command m w = (Ok tt, w')
       /\ outbox w'
          = outbox w
            ++ [Answer (chat_id m) (lit "Введіть тікер компанії. Приклад: /overview AAPL") []]
       /\ requests w' = requests w /\ fsm w' = fsm w /\ db w' = db w)
  /\ (forall cmd arg rest,
         split_ws (text m) = cmd :: arg :: rest ->
         overview_command m w = send_company_overview m (upper arg) w).
Proof.
  unfold overview_command. split.
  - intros Hlen. apply Nat.ltb_lt in Hlen. rewrite Hlen.
    eexists. split; [reflexivity|]. repeat split.
  - intros cmd arg rest ->. reflexivity.
Qed.

(** X15: the preset list is sent as one message with one button per
    preset ticker, in order, and pressing any of them analyses exactly the
    ticker on its label. *)
Theorem top_stocks_buttons_analyse_label (m : message) (w : world) :
  exists w' body kb,
    top_stocks_button m w = (Ok tt, w')
    /\ outbox w' = outbox w ++ [Answer (chat_id m) body kb]
    /\ map label kb = top_stocks
    /\ forall b cb shown w0,
         In b kb ->
         data cb = callback_data b ->
         analyze_callback cb shown w0
         = bind (send_stock_analysis shown (label b))
             (fun _ => send (CallbackAnswer (presser cb) [])) w0.
Proof.
  unfold top_stocks_button, answer, send.
  eexists. eexists. eexists. split; [reflexivity|]. split; [reflexivity|].
  split.
  - rewrite map_map. cbn [label]. apply map_id.
  - intros b cb shown w0 Hin Hdata. unfold analyze_callback. rewrite Hdata.
    apply in_map_iff in Hin. destruct Hin as (stock & <- & Hstock).
    cbn [callback_data label].
    destruct (second_field_round_trip stock) as (Hsf & _ & Hsame & _).
    rewrite Hsf, Hsame; [reflexivity|].
    revert Hstock. unfold top_stocks.
    intros Hstock Hus.
    repeat (destruct Hstock as [<-|Hstock];
            [revert Hus; vm_compute; intuition discriminate|]).
    destruct Hstock.
Qed.

End CommandExtras.

Lemma stock_command_cases_witness :
  let w := fresh_world empty_db ∅ offline in
  exists w',
    stock_command (private_message 7 "/stock") w = (Ok tt, w')
    /\ outbox w'
       = [Answer 7 (lit "Введіть тікер акції. Приклад: /stock AAPL") []]
    /\ requests w' = 0%nat.
Proof.
  intros w.
  destruct (proj1 (@stock_command_cases plain_runtime (private_message 7 "/stock") w))
    as (w' & Hrun & Hout & Hreq & _).
  - vm_compute. lia.
  - exists w'. split; [exact Hrun|]. split; [exact Hout|exact Hreq].
Defined.

Lemma overview_command_cases_witness :
  let w := fresh_world empty_db ∅ offline in
  exists w',
    overview_command (private_message 7 "/overview") w = (Ok tt, w')
    /\ outbox w'
       = [Answer 7 (lit "Введіть тікер компанії. Приклад: /overview AAPL") []]
    /\ requests w' = 0%nat.
Proof.
  intros w.
  destruct (proj1 (@overview_command_cases plain_runtime (private_message 7 "/overview") w))
    as (w' & Hrun & Hout & Hreq & _).
  - vm_compute. lia.
  - exists w'. split; [exact Hrun|]. split; [exact Hout|exact Hreq].
Defined.

(** ** Adding to the watch-list from a button *)

Lemma starts_with_split (p s : pystr) :
  starts_with p s = true -> exists rest, s = p ++ rest.
Proof.
  revert s. induction p as [|a p IH]; intros s Hs.
  - exists s. reflexivity.
  - destruct s as [|b s]; [discriminate Hs|]. cbn [starts_with] in Hs.
    apply andb_prop in Hs. destruct Hs as [Hab Hs].
    apply N.eqb_eq in Hab. subst b.
    destruct (IH s Hs) as (rest & ->). exists rest. reflexivity.
Qed.

Lemma ticker_of_payload_prefixed (rest : pystr) :
  ticker_of_payload (lit "add_watchlist_" ++ rest)
  = Ok (before_first underscore rest).
Proof.
  unfold ticker_of_payload, split_on.
  let l := eval vm_compute in (lit "add_watchlist_") in
  change (lit "add_watchlist_") with l.
  cbn [app split_on_go N.eqb Pos.eqb underscore].
  unfold index. cbn [nth_error].
  pose proof (split_on_go_head underscore rest []) as Hh.
  destruct (split_on_go underscore rest []) as [|x r]; simpl in Hh; [discriminate|].
  injection Hh as ->. reflexivity.
Qed.

Section AddButton.
Context `{Runtime}.

Lemma add_watchlist_callback_run (cb : callback) (w : world) (tk : pystr) :
  ticker_of_payload (data cb) = Ok tk ->
  add_watchlist_callback cb w
  = (Ok tt,
     sent (CallbackAnswer (presser cb)
             (lit "✅ " ++ tk ++ lit " додано до списку відстеження!"))
       {| db := add_to_watchlist (clock w) (presser cb) tk (db w);
          fsm := fsm w; outbox := outbox w; requests := requests w;
          provider := provider w; clock := clock w; errors := errors w |}).
Proof.
  intros Htk. unfold add_watchlist_callback, bind, eval, with_db.
  rewrite Htk. reflexivity.
Qed.

(** X16: pressing the "add to watchlist" button shown under the analysis
    of [tk] appends one entry to the list of the user who pressed, the
    ticker read from the payload upper-cased, and confirms with the ticker
    as read; no other user's list and no conversation state changes.  The
    ticker read is [tk] up to its first underscore. *)
Theorem add_button_appends (cb : callback) (w : world) (tk : pystr) :
  In {| label := lit "➕ Додати до списку"; callback_data := data cb |}
     (analysis_buttons tk) ->
  let read := before_first underscore tk in
  exists w',
    add_watchlist_callback cb w = (Ok tt, w')
    /\ get_watchlist (presser cb) (db w')
       = get_watchlist (presser cb) (db w) ++ [upper read]
    /\ (forall other, other <> presser cb ->
          get_watchlist other (db w') = get_watchlist other (db w))
    /\ outbox w'
       = outbox w
         ++ [CallbackAnswer (presser cb)
               (lit "✅ " ++ read ++ lit " додано до списку відстеження!")]
    /\ fsm w' = fsm w.
Proof.
  intros Hin read.
  assert (data cb = add_watchlist_payload tk) as Hdata.
  { unfold analysis_buttons in Hin. destruct Hin as [Heq|[Heq|[]]].
    - injection Heq as Hd. symmetry. exact Hd.
    - exfalso. injection Heq as Hl _. revert Hl. vm_compute. discriminate. }
  rewrite (add_watchlist_callback_run cb w read).
  2:{ rewrite Hdata. apply ticker_of_payload_add. }
  eexists. split; [reflexivity|]. unfold sent, send. cbn [snd db outbox fsm].
  split; [|split; [|split; reflexivity]].
  - rewrite get_watchlist_add, Z.eqb_refl. reflexivity.
  - intros other Hne. rewrite get_watchlist_add.
    destruct (Z.eqb_spec (presser cb) other); [congruence|]. apply app_nil_r.
Qed.

(** X17: under its filter, a payload that starts with "add_watchlist_",
    [add_watchlist_callback] never raises: the payload has a third field,
    whatever follows the prefix.  A payload with fewer than two
    underscores makes the indexing raise [IndexError], and then nothing is
    stored and nothing is sent. *)
Theorem add_watchlist_callback_filter (cb : callback) (w : world) :
  (starts_with (lit "add_watchlist_") (data cb) = true ->
     exists tk w',
       ticker_of_payload (data cb) = Ok tk
       /\ add_watchlist_callback cb w = (Ok tt, w'))
  /\ ((length (split_on underscore (data cb)) < 3)%nat ->
        add_watchlist_callback cb w = (Raise IndexError, w)).
Proof.
  split.
  - intros Hs.
    destruct (starts_with_split (lit "add_watchlist_") (data cb) Hs) as (rest & Hd).
    exists (before_first underscore rest).
    assert (ticker_of_payload (data cb) = Ok (before_first underscore rest)) as Htk.
    { rewrite Hd. apply ticker_of_payload_prefixed. }
    rewrite (add_watchlist_callback_run cb w _ Htk).
    eexists. split; [exact Htk|reflexivity].
  - intros Hlen. unfold add_watchlist_callback, bind, eval, ticker_of_payload, index.
    destruct (nth_error (split_on underscore (data cb)) 2) as [x|] eqn:E.
    + exfalso. assert (nth_error (split_on underscore (data cb)) 2 <> None) as Hn
        by congruence.
      apply nth_error_Some in Hn. lia.
    + reflexivity.
Qed.

End AddButton.

Lemma add_button_appends_witness :
  let cb := {| presser := 7; data := lit "add_watchlist_BRK_B"; shown_in := 7 |} in
  let w := fresh_world empty_db ∅ offline in
  exists w',
    add_watchlist_callback cb w = (Ok tt, w')
    /\ get_watchlist 7 (db w') = [lit "BRK"]
    /\ outbox w'
       = [CallbackAnswer 7 (lit "✅ BRK додано до списку відстеження!")].
Proof.
  intros cb w.
  destruct (@add_button_appends plain_runtime cb w (lit "BRK_B"))
    as (w' & Hrun & Hlist & _ & Hout & _).
  - left. reflexivity.
  - subst cb. cbn [presser] in Hlist, Hout.
    exists w'. split; [exact Hrun|]. split.
    + rewrite Hlist. vm_compute. reflexivity.
    + rewrite Hout. vm_compute. reflexivity.
Defined.

Lemma add_watchlist_callback_filter_witness :
  let w := fresh_world empty_db ∅ offline in
  let bare := {| presser := 7; data := lit "add_watchlist_"; shown_in := 7 |} in
  let short := {| presser := 7; data := lit "add_x"; shown_in := 7 |} in
  (exists tk w',
      ticker_of_payload (data bare) = Ok tk
      /\ add_watchlist_callback bare w = (Ok tt, w'))
  /\ add_watchlist_callback short w = (Raise IndexError, w).
Proof.
  intros w bare short. split.
  - apply (proj1 (@add_watchlist_callback_filter plain_runtime bare w)).
    vm_compute. reflexivity.
  - apply (proj2 (@add_watchlist_callback_filter plain_runtime short w)).
    vm_compute. lia.
Defined.

(** ** The conversation handlers *)

Section HandlerExtras.
Context `{Runtime}.


(** X19: [process_calculator] never raises, whatever the text and the
    provider: it sends exactly one message, which is the format-error
    text, the not-found text or a result text, it issues at most one
    request, and it leaves the database alone. *)
Theorem process_calculator_one_reply (m : message) (w : world) :
  exists w' body,
    process_calculator m w = (Ok tt, w')
    /\ outbox w' = outbox w ++ [Answer (chat_id m) body []]
    /\ (body = format_error_text
        \/ body = calculator_not_found_text
        \/ exists tk shares bp cp c,
             parsed_input (text m) = Some (tk, shares, bp)
             /\ calculate shares bp cp = Ok c
             /\ body = result_text tk shares bp cp c)
    /\ (requests w' <= S (requests w))%nat
    /\ db w' = db w.
Proof.
  destruct (parsed_input (text m)) as [[[tk shares] bp]|] eqn:Hp.
  - rewrite (process_calculator_parsed m w tk shares bp Hp). cbv zeta.
    destruct (fetched _) as [q|].
    + destruct (calculate shares bp (price q)) as [c|e] eqn:Hc.
      * eexists. eexists. split; [reflexivity|]. split; [reflexivity|].
        split; [|split; [cbn; lia|reflexivity]].
        right. right. exists tk, shares, bp, (price q), c. repeat split. exact Hc.
      * eexists. eexists. split; [reflexivity|]. split; [reflexivity|].
        split; [now left|split; [cbn; lia|reflexivity]].
    + eexists. eexists. split; [reflexivity|]. split; [reflexivity|].
      split; [right; now left|split; [cbn; lia|reflexivity]].
  - rewrite (process_calculator_rejected m w Hp).
    eexists. eexists. split; [reflexivity|]. split; [reflexivity|].
    split; [now left|split; [cbn; lia|reflexivity]].
Qed.

(** X20: a calculator text that does not parse (not three tokens, or a
    share count [int()] rejects, or a price [float()] rejects) is answered
    with the format-error text without any request to the provider, and
    the state is cleared. *)
Theorem process_calculator_rejects (m : message) (w : world) :
  parsed_input (text m) = None ->
  exists w',
    process_calculator m w = (Ok tt, w')
    /\ outbox w' = outbox w ++ [Answer (chat_id m) format_error_text []]
    /\ requests w' = requests w
    /\ errors w' = errors w
    /\ state_of w' m = None.
Proof.
  intros Hp. rewrite (process_calculator_rejected m w Hp).
  eexists. split; [reflexivity|]. repeat split. apply state_of_cleared.
Qed.

(** X21: handling a message of one user never touches the conversation
    state of another key: after [process_ticker] and after
    [process_calculator] every other (chat, user) key has the state it
    had. *)
Theorem state_handlers_frame (m : message) (w : world) (key : Z * Z) :
  key <> (chat_id m, from_user m) ->
  fsm (snd (process_ticker m w)) !! key = fsm w !! key
  /\ fsm (snd (process_calculator m w)) !! key = fsm w !! key.
Proof.
  intros Hne. split.
  - unfold process_ticker, bind. rewrite send_stock_analysis_run.
    unfold clear_state, with_fsm. cbn [snd fsm].
    rewrite lookup_delete_ne by congruence. reflexivity.
  - assert (forall w0, fsm (cleared m w0) !! key = fsm w0 !! key) as Hcl.
    { intros w0. unfold cleared, clear_state, with_fsm. cbn [snd fsm].
      apply lookup_delete_ne. congruence. }
    destruct (parsed_input (text m)) as [[[tk shares] bp]|] eqn:Hp.
    + rewrite (process_calculator_parsed m w tk shares bp Hp). cbv zeta.
      destruct (fetched _) as [q|]; [|reflexivity].
      destruct (calculate shares bp (price q)); cbn [snd]; rewrite Hcl; reflexivity.
    + rewrite (process_calculator_rejected m w Hp). cbn [snd]. rewrite Hcl.
      reflexivity.
Qed.

(** X22: the watch-list command issues exactly one quote request per
    stored ticker, duplicates included, and changes neither the database
    nor any conversation state. *)
Theorem watchlist_command_effects (m : message) (w : world) :
  exists w',
    watchlist_command m w = (Ok tt, w')
    /\ requests w'
       = (requests w + length (get_watchlist (from_user m) (db w)))%nat
    /\ db w' = db w /\ fsm w' = fsm w.
Proof.
  unfold watchlist_command, bind, read_db.
  destruct (get_watchlist (from_user m) (db w)) as [|tk0 rest] eqn:Ewl.
  - eexists. split; [reflexivity|]. cbn. repeat split. lia.
  - rewrite watchlist_loop_run. unfold answer, send.
    eexists. split; [reflexivity|]. cbn [requests db fsm].
    destruct (after_fetches_provider (tk0 :: rest) w) as (_ & -> & _ & -> & ->).
    repeat split.
Qed.

End HandlerExtras.

Lemma process_calculator_rejects_witness :
  let m := private_message 7 "AAPL ten 150.50" in
  let w := fresh_world empty_db {[ (7, 7) := calculator_input ]}
             (quoting "AAPL" "160.00" "1.25" "0.79%") in
  exists w',
    process_calculator m w = (Ok tt, w')
    /\ outbox w' = outbox w ++ [Answer (chat_id m) format_error_text []]
    /\ requests w' = requests w
    /\ errors w' = errors w
    /\ state_of w' m = None.
Proof.
  intros m w. apply (@process_calculator_rejects plain_runtime m w).
  vm_compute. reflexivity.
Defined.

Lemma state_handlers_frame_witness :
  let m := private_message 7 "tsla" in
  let w := fresh_world empty_db
             (<[ (8, 8) := calculator_input ]> {[ (7, 7) := waiting_for_ticker ]})
             offline in
  fsm (snd (process_ticker m w)) !! (8, 8) = fsm w !! (8, 8)
  /\ fsm (snd (process_calculator m w)) !! (8, 8) = fsm w !! (8, 8).
Proof.
  intros m w. apply (@state_handlers_frame plain_runtime m w (8, 8)).
  cbn. discriminate.
Defined.

Lemma process_calculator_clears_witness :
  let m := private_message 7 "AAPL 10 150.50" in
  let w := fresh_world empty_db {[ (7, 7) := calculator_input ]}
             (quoting "AAPL" "160.00" "1.25" "0.79%") in
  exists w', process_calculator m w = (Ok tt, w') /\ state_of w' m = None.
Proof.
  intros m w. apply (@process_calculator_clears plain_runtime m w).
  intros tk shares bp Hp. vm_compute in Hp. injection Hp as <- <- <-.
  vm_compute. discriminate.
Defined.

Section FlowExtras.
Context `{Runtime}.



(** X24: a share count too large for a float is no fault either: the
    input parses, the fetch succeeds, the multiplication raises
    [OverflowError], and the user gets the format-error text with the
    state cleared. *)
Theorem calculator_share_count_overflow (m : message) (w : world)
  (tk : pystr) (shares : Z) (bp : float) (q : quote) :
  parsed_input (text m) = Some (tk, shares, bp) ->
  PyFloat.of_int shares = Raise OverflowError ->
  fetched (provider w (requests w) GLOBAL_QUOTE (upper tk)) = Some q ->
  exists w',
    process_calculator m w = (Ok tt, w')
    /\ outbox w' = outbox w ++ [Answer (chat_id m) format_error_text []]
    /\ state_of w' m = None.
Proof.
  intros Hp Ho Hf. rewrite (process_calculator_parsed m w tk shares bp Hp).
  cbv zeta. rewrite Hf.
  assert (calculate shares bp (price q) = Raise OverflowError) as ->.
  { unfold calculate, int_mul_float. rewrite Ho. reflexivity. }
  eexists. split; [reflexivity|]. split; [reflexivity|]. apply state_of_cleared.
Qed.

End FlowExtras.


Lemma calculator_share_count_overflow_witness :
  let m := {| chat_id := 7; from_user := 7;
              text := lit "AAPL 1" ++ repeat 48%N 400 ++ lit " 150.50" |} in
  let w := fresh_world empty_db {[ (7, 7) := calculator_input ]}
             (quoting "AAPL" "160.00" "1.25" "0.79%") in
  exists w',
    process_calculator m w = (Ok tt, w')
    /\ outbox w' = outbox w ++ [Answer (chat_id m) format_error_text []]
    /\ state_of w' m = None.
Proof.
  intros m w.
  assert (exists q, fetched (provider w (requests w) GLOBAL_QUOTE
                               (@upper plain_runtime (lit "AAPL"))) = Some q)
    as (q & Hq) by (eexists; vm_compute; reflexivity).
  apply (@calculator_share_count_overflow plain_runtime m w (lit "AAPL")
           (10 ^ 400) 150.5%float q).
  - vm_compute. reflexivity.
  - vm_compute. reflexivity.
  - exact Hq.
Defined.

Section StateAfter.
Context `{Runtime}.

(** X25: the state [process_calculator] leaves, on every path: it is
    cleared when the text does not parse and when the fetch returned a
    quote (whether the result was rendered or the arithmetic raised); it
    is what it was before when the text parses and the fetch returned
    absent. *)
Theorem process_calculator_state_after (m : message) (w : world) :
  state_of (snd (process_calculator m w)) m
  = match parsed_input (text m) with
    | Some (tk, _, _) =>
        match fetched (provider w (requests w) GLOBAL_QUOTE (upper tk)) with
        | Some _ => None
        | None => state_of w m
        end
    | None => None
    end.
Proof.
  destruct (parsed_input (text m)) as [[[tk shares] bp]|] eqn:Hp.
  - rewrite (process_calculator_parsed m w tk shares bp Hp). cbv zeta.
    destruct (fetched _) as [q|].
    + destruct (calculate shares bp (price q)); cbn [snd]; apply state_of_cleared.
    + cbn [snd]. rewrite state_of_sent, state_of_after_fetch. reflexivity.
  - rewrite (process_calculator_rejected m w Hp). cbn [snd].
    apply state_of_cleared.
Qed.

End StateAfter.
